(** * FDC3 desktop-agent proxy: intent router and private-channel broadcast router

    A shallow embedding of [DefaultIntentSupport] (class [DefaultIntentSupport]
    and its helper [convertIntentResult]) and of [BroadcastHandler] (with its
    helpers [matches] and [createListenerRegistration]), followed by the
    properties the specification states about them.

    Conventions of the embedding:
    - a JavaScript value of type [string | null | undefined] is an
      [option string]; [null] and [undefined] are both [None], exactly as the
      loose comparison [==] used throughout the source identifies them;
    - a [throw] is the [Throw] completion, a normal return is [Return];
    - calls on collaborators (the messaging gateway, the intent resolver,
      the server context) are recorded, in call order, in the state that the
      computation threads through. *)

From Stdlib Require Import ZArith String List Bool.
From stdpp Require Import base decidable option list strings.

Local Open Scope string_scope.
Local Open Scope list_scope.
Local Open Scope Z_scope.

(** ** JavaScript values and completions *)

Module JS.

(** Truthiness of a string: only the empty string is falsy. *)
Definition truthy (s : string) : bool :=
  match s with
  | EmptyString => false
  | String _ _ => true
  end.

(** Truthiness of [string | null | undefined]. *)
Definition truthy_opt (o : option string) : bool :=
  match o with
  | Some s => truthy s
  | None => false
  end.

(** [x == null]. *)
Definition is_nullish {A : Type} (o : option A) : bool :=
  match o with
  | Some _ => false
  | None => true
  end.

(** [a == b] on two strings, or on two [string | null | undefined]. *)
Definition loose_eq {A : Type} `{EqDecision A} (a b : A) : bool :=
  bool_decide (a = b).

(** What a JavaScript [throw] carries here: [new Error(message)], or the
    [TypeError] the runtime raises when a property of [undefined] is read. *)
Inductive Thrown : Type :=
| Error (message : string)
| TypeError (what : string).

Inductive Completion (A : Type) : Type :=
| Return (a : A)
| Throw (e : Thrown).
Global Arguments Return {A} a.
Global Arguments Throw {A} e.

(** State-and-exception monad: the state is whatever the code mutates or
    the log of calls it makes on its collaborators. *)
Definition M (S A : Type) : Type := S -> Completion A * S.

Definition ret {S A : Type} (a : A) : M S A := fun s => (Return a, s).

Definition throw {S A : Type} (e : Thrown) : M S A := fun s => (Throw e, s).

Definition bind {S A B : Type} (c : M S A) (k : A -> M S B) : M S B :=
  fun s =>
    match c s with
    | (Return a, s') => k a s'
    | (Throw e, s') => (Throw e, s')
    end.

Definition get {S : Type} : M S S := fun s => (Return s, s).

Definition modify {S : Type} (f : S -> S) : M S unit := fun s => (Return tt, f s).

(** [xs.forEach(f)]: call [f] on each element in index order. *)
Fixpoint forEach {S A : Type} (xs : list A) (f : A -> M S unit) : M S unit :=
  match xs with
  | [] => ret tt
  | x :: rest => bind (f x) (fun _ => forEach rest f)
  end.

End JS.

Import JS.

Declare Scope js_scope.
Delimit Scope js_scope with js.
Notation "x <- c ;; k" := (JS.bind c (fun x => k))
  (at level 100, c at next level, right associativity) : js_scope.
Notation "c ;; k" := (JS.bind c (fun _ => k))
  (at level 100, right associativity) : js_scope.

(** ** Shared FDC3 data *)

Record AppIdentifier : Type := {
  appId : string;
  instanceId : option string
}.

Record Context : Type := {
  ctx_type : string;
  ctx_name : option string;
  ctx_id : list (string * string)
}.

Global Instance AppIdentifier_eq_dec : EqDecision AppIdentifier.
Proof. solve_decision. Defined.

Global Instance Context_eq_dec : EqDecision Context.
Proof. solve_decision. Defined.

(** ** BroadcastHandler *)

Module BroadcastRouter.

Record ListenerRegistration : Type := {
  lr_appId : option string;
  lr_instanceId : option string;
  lr_channelId : string;
  lr_contextType : option string
}.

Record Destination : Type := {
  dest_appId : option string;
  dest_instanceId : option string
}.

Record RequestMeta : Type := {
  source : option AppIdentifier;
  destination : option Destination;
  requestUuid : string;
  timestamp : Z
}.

(** The payload fields the handler reads: [channelId] (all three requests),
    [contextType] (add-listener and unsubscribe), [context] (broadcast). *)
Record RequestPayload : Type := {
  channelId : string;
  contextType : option string;
  context : option Context
}.

Record AgentRequestMessage : Type := {
  msg_type : string;
  meta : RequestMeta;
  payload : RequestPayload
}.

Global Instance ListenerRegistration_eq_dec : EqDecision ListenerRegistration.
Proof. solve_decision. Defined.

Global Instance Destination_eq_dec : EqDecision Destination.
Proof. solve_decision. Defined.

(** The handler's field [regs] and the messages handed to [sc.post],
    oldest first. *)
Record World : Type := {
  regs : list ListenerRegistration;
  posted : list AgentRequestMessage
}.

Definition matches (lr1 lr2 : ListenerRegistration) : bool :=
  loose_eq (lr_appId lr1) (lr_appId lr2) &&
  loose_eq (lr_instanceId lr1) (lr_instanceId lr2) &&
  loose_eq (lr_channelId lr1) (lr_channelId lr2) &&
  loose_eq (lr_contextType lr1) (lr_contextType lr2).

(** [msg.meta.source?.appId] is [undefined] when the envelope has no source. *)
Definition createListenerRegistration (msg : AgentRequestMessage) : ListenerRegistration :=
  {| lr_appId := option_map appId (source (meta msg));
     lr_instanceId := match source (meta msg) with
                      | Some s => instanceId s
                      | None => None
                      end;
     lr_channelId := channelId (payload msg);
     lr_contextType := contextType (payload msg) |}.

(** [Array.prototype.findIndex]: index of the first hit, [-1] when none. *)
Definition findIndex {A : Type} (p : A -> bool) (l : list A) : Z :=
  match list_find (fun e => Is_true (p e)) l with
  | Some (i, _) => Z.of_nat i
  | None => -1
  end.

(** [l.splice(i, 1)] for an index [i] inside the array. *)
Definition splice1 {A : Type} (i : Z) (l : list A) : list A :=
  delete (Z.to_nat i) l.

Definition sc_post (out : AgentRequestMessage) : M World unit :=
  modify (fun w => {| regs := regs w; posted := posted w ++ [out] |}).

Definition set_regs (l : list ListenerRegistration) : M World unit :=
  modify (fun w => {| regs := l; posted := posted w |}).

Definition handleOnUnsubscribe (arg0 : AgentRequestMessage) : M World unit :=
  (let lr := createListenerRegistration arg0 in
   w <- get ;;
   let fi := findIndex (fun e => matches e lr) (regs w) in
   if -1 <? fi then set_regs (splice1 fi (regs w)) else ret tt)%js.

Definition handleOnAddContextListener (arg0 : AgentRequestMessage) : M World unit :=
  (let lr := createListenerRegistration arg0 in
   w <- get ;;
   set_regs (regs w ++ [lr]))%js.

(** The [filter] predicate of [handleBroadcast]. *)
Definition selected (channelId : string) (contextType : string)
    (r : ListenerRegistration) : bool :=
  loose_eq (lr_channelId r) channelId &&
  (is_nullish (lr_contextType r) || loose_eq (lr_contextType r) (Some contextType)).

(** The object literal [out] built for one registration. *)
Definition forwarded (arg0 : AgentRequestMessage) (r : ListenerRegistration)
    : AgentRequestMessage :=
  {| meta := {| source := source (meta arg0);
                destination := Some {| dest_appId := lr_appId r;
                                       dest_instanceId := lr_instanceId r |};
                requestUuid := requestUuid (meta arg0);
                timestamp := timestamp (meta arg0) |};
     msg_type := msg_type arg0;
     payload := payload arg0 |}.

Definition handleBroadcast (arg0 : AgentRequestMessage) : M World unit :=
  (let channelId := channelId (payload arg0) in
   match context (payload arg0) with
   | None => throw (TypeError "Cannot read properties of undefined (reading 'type')")
   | Some ctx =>
       let contextType := ctx_type ctx in
       w <- get ;;
       forEach (filter (fun r => Is_true (selected channelId contextType r)) (regs w))
               (fun r => sc_post (forwarded arg0 r))
   end)%js.

Definition accept (msg : AgentRequestMessage) : M World unit :=
  let t := msg_type msg in
  if String.eqb t "PrivateChannel.broadcast" then handleBroadcast msg
  else if String.eqb t "PrivateChannel.onAddContextListener" then handleOnAddContextListener msg
  else if String.eqb t "PrivateChannel.onUnsubscribe" then handleOnUnsubscribe msg
  else if String.eqb t "broadcast" then handleBroadcast msg
  else if String.eqb t "onAddContextListener" then handleOnAddContextListener msg
  else if String.eqb t "onUnsubscribe" then handleOnUnsubscribe msg
  else ret tt.

End BroadcastRouter.

(** ** DefaultIntentSupport *)

Module IntentRouter.

(** *** Data exchanged with the desktop agent *)

Record IntentMetadata : Type := {
  im_name : string;
  im_displayName : option string
}.

Record AppIntent : Type := {
  intent : IntentMetadata;
  apps : list AppIdentifier
}.

(** What [messaging.createMeta()] returns. *)
Record Meta : Type := {
  requestUuid : string;
  timestamp : Z;
  source : AppIdentifier
}.

(** The three request messages built by the class; [request_type] is the
    [type] field of the object literal. *)
Inductive AgentRequest : Type :=
| FindIntentAgentRequest (intent : string) (context : Context)
    (resultType : option string) (meta : Meta)
| FindIntentsByContextAgentRequest (context : Context) (meta : Meta)
| RaiseIntentAgentRequest (intent : string) (context : Context)
    (app : AppIdentifier) (meta : Meta).

Definition request_type (r : AgentRequest) : string :=
  match r with
  | FindIntentAgentRequest _ _ _ _ => "findIntentRequest"
  | FindIntentsByContextAgentRequest _ _ => "findIntentsByContextRequest"
  | RaiseIntentAgentRequest _ _ _ _ => "raiseIntentRequest"
  end.

Definition request_meta (r : AgentRequest) : Meta :=
  match r with
  | FindIntentAgentRequest _ _ _ m => m
  | FindIntentsByContextAgentRequest _ m => m
  | RaiseIntentAgentRequest _ _ _ m => m
  end.

(** Modelled from the spec: the [error] field of an error response
    (section 6, [findIntentResponse{...}] or [{error}]). Its bridging type
    [ErrorMessages] is declared outside the source files at hand; it is a
    union of string literals, none of them empty, and that is all the
    router relies on when it tests [if (error)]. *)
Record ErrorMessages : Type := {
  em_message : string;
  em_truthy : truthy em_message = true
}.

Record IntentResolutionDetails : Type := {
  ird_source : AppIdentifier;
  ird_intent : string;
  ird_version : option string
}.

(** The response a call of [exchange] resolves to, by the shape of its
    payload. *)
Inductive AgentResponse : Type :=
| FindIntentAgentResponse (appIntent : AppIntent)
| FindIntentsByContextAgentResponse (appIntents : list AppIntent)
| RaiseIntentAgentResponse (intentResolution : IntentResolutionDetails)
| AgentErrorResponse (error : ErrorMessages).

(** [result.payload.error] and its siblings: [undefined] on a payload of
    another shape. *)
Definition payload_error (r : AgentResponse) : option ErrorMessages :=
  match r with
  | AgentErrorResponse e => Some e
  | _ => None
  end.

Definition payload_appIntent (r : AgentResponse) : option AppIntent :=
  match r with
  | FindIntentAgentResponse ai => Some ai
  | _ => None
  end.

Definition payload_appIntents (r : AgentResponse) : option (list AppIntent) :=
  match r with
  | FindIntentsByContextAgentResponse ais => Some ais
  | _ => None
  end.

Definition payload_intentResolution (r : AgentResponse) : option IntentResolutionDetails :=
  match r with
  | RaiseIntentAgentResponse d => Some d
  | _ => None
  end.

Record DisplayMetadata : Type := {
  dm_name : option string;
  dm_color : option string;
  dm_glyph : option string
}.

Record Channel : Type := {
  ch_id : string;
  ch_type : string;
  ch_displayMetadata : option DisplayMetadata
}.

Record IntentResultPayload : Type := {
  irp_channel : option Channel;
  irp_context : option Context
}.

Record RaiseIntentResultPayload : Type := {
  intentResult : option IntentResultPayload
}.

(** An inbound message as [waitFor] shows it to its predicate and to
    [convertIntentResult]. *)
Record RaiseIntentResultAgentResponse : Type := {
  rr_type : string;
  rr_requestUuid : string;
  rr_payload : option RaiseIntentResultPayload
}.

(** [new DefaultChannel(messaging, id, type, displayMetadata)],
    [new DefaultPrivateChannel(messaging, id)], a context, or [undefined]. *)
Inductive IntentResult : Type :=
| DefaultChannel (id : string) (type : string) (displayMetadata : option DisplayMetadata)
| DefaultPrivateChannel (id : string)
| ContextResult (c : Context)
| Void.

Record IntentChoice : Type := {
  ic_intent : IntentMetadata;
  ic_chosenApp : AppIdentifier
}.

(** *** Collaborators *)

(** Calls made on the messaging gateway and on the intent resolver. *)
Inductive Call : Type :=
| CallCreateMeta
| CallWaitFor (filter : RaiseIntentResultAgentResponse -> bool)
| CallExchange (msg : AgentRequest) (expectedTypeName : string)
| CallGetSource
| CallChooseIntent (appIntents : list AppIntent) (source : AppIdentifier)
| CallIntentChosen (ir : IntentResult).

(** Modelled from the spec: the Messaging Gateway and the Intent Resolver
    (section 6), whose implementations are external collaborators.
    [createMeta] mints one envelope per call, [exchange] resolves to the
    correlated response or rejects, [getSource] is this endpoint's identity,
    [chooseIntent] resolves to the resolver's choice or rejects. *)
Record Collaborators : Type := {
  minted_meta : nat -> Meta;
  exchange_result : AgentRequest -> string -> Completion AgentResponse;
  own_source : AppIdentifier;
  chooseIntent_result : list AppIntent -> AppIdentifier -> Completion IntentChoice
}.

(** The calls made so far, oldest first, and the number of envelopes
    minted. *)
Record World : Type := {
  calls : list Call;
  minted : nat
}.

Definition record (c : Call) : M World unit :=
  modify (fun w => {| calls := calls w ++ [c]; minted := minted w |}).

Definition lift {A : Type} (c : Completion A) : M World A :=
  fun w => (c, w).

(** The [ResolveError] constants the class throws. *)
Definition NoAppsFound : string := "NoAppsFound".
Definition TargetAppUnavailable : string := "TargetAppUnavailable".
Definition TargetInstanceUnavailable : string := "TargetInstanceUnavailable".

(** A pending result: the predicate handed to [waitFor], and the rest of
    [createResultPromise], which runs once [waitFor] has resolved to a
    message or to nothing. *)
Record ResultPromise : Type := {
  rp_filter : RaiseIntentResultAgentResponse -> bool;
  rp_then : option RaiseIntentResultAgentResponse -> M World IntentResult
}.

(** [new DefaultIntentResolution(messaging, resultPromise, source, intent, version)]. *)
Record IntentResolution : Type := {
  res_resultPromise : ResultPromise;
  res_source : AppIdentifier;
  res_intent : string;
  res_version : option string
}.

(** *** Functions of the source *)

(** The switch has no default: a channel of another type leaves the
    function without a [return], and the caller's [await] yields
    [undefined]. *)
Definition convertIntentResult (m : RaiseIntentResultAgentResponse) : IntentResult :=
  let ir := match rr_payload m with
            | Some p => intentResult p
            | None => None
            end in
  match ir with
  | Some r =>
      match irp_channel r with
      | Some c =>
          if String.eqb (ch_type c) "app" || String.eqb (ch_type c) "user"
          then DefaultChannel (ch_id c) (ch_type c) (ch_displayMetadata c)
          else if String.eqb (ch_type c) "private"
          then DefaultPrivateChannel (ch_id c)
          else Void
      | None =>
          match irp_context r with
          | Some ctx => ContextResult ctx
          | None => Void
          end
      end
  | None => Void
  end.

Definition matchAppId (found req : AppIdentifier) : bool :=
  loose_eq (appId found) (appId req) &&
  ((is_nullish (instanceId found) && is_nullish (instanceId req))
   || loose_eq (instanceId found) (instanceId req)).

Definition filterApps (appIntent : AppIntent) (app : AppIdentifier) : AppIntent :=
  {| apps := filter (fun a => Is_true (matchAppId a app)) (apps appIntent);
     intent := intent appIntent |}.

Section WithCollaborators.

Variable env : Collaborators.

Definition createMeta : M World Meta :=
  fun w => (Return (minted_meta env (minted w)),
            {| calls := calls w ++ [CallCreateMeta]; minted := S (minted w) |}).

Definition exchange (msg : AgentRequest) (expectedTypeName : string)
    : M World AgentResponse :=
  (record (CallExchange msg expectedTypeName) ;;
   lift (exchange_result env msg expectedTypeName))%js.

Definition getSource : M World AppIdentifier :=
  (record CallGetSource ;; ret (own_source env))%js.

Definition chooseIntent (appIntents : list AppIntent) (source : AppIdentifier)
    : M World IntentChoice :=
  (record (CallChooseIntent appIntents source) ;;
   lift (chooseIntent_result env appIntents source))%js.

Definition intentChosen (ir : IntentResult) : M World unit :=
  record (CallIntentChosen ir).

Definition findIntent (intent : string) (context : Context)
    (resultType : option string) : M World AppIntent :=
  (meta <- createMeta ;;
   let messageOut := FindIntentAgentRequest intent context resultType meta in
   result <- exchange messageOut "findIntentResponse" ;;
   let error := payload_error result in
   if truthy_opt (option_map em_message error)
   then throw (Error (from_option em_message "" error))
   else match payload_appIntent result with
        | None => throw (TypeError "Cannot read properties of undefined (reading 'apps')")
        | Some appIntent =>
            if (length (apps appIntent) =? 0)%nat
            then throw (Error NoAppsFound)
            else ret {| intent := IntentRouter.intent appIntent;
                        apps := apps appIntent |}
        end)%js.

Definition findIntentsByContext (context : Context) : M World (list AppIntent) :=
  (meta <- createMeta ;;
   let messageOut := FindIntentsByContextAgentRequest context meta in
   result <- exchange messageOut "findIntentsByContextResponse" ;;
   match payload_appIntents result with
   | None => throw (TypeError "Cannot read properties of undefined (reading 'length')")
   | Some appIntents =>
       if (length appIntents =? 0)%nat
       then throw (Error NoAppsFound)
       else ret appIntents
   end)%js.

(** The predicate of the subscription made for [messageOut]. *)
Definition result_filter (messageOut : AgentRequest)
    (m : RaiseIntentResultAgentResponse) : bool :=
  loose_eq (rr_type m) "raiseIntentResultResponse" &&
  loose_eq (rr_requestUuid m) (requestUuid (request_meta messageOut)).

(** The part of [createResultPromise] after its [await]. *)
Definition createResultPromise_then (rp : option RaiseIntentResultAgentResponse)
    : M World IntentResult :=
  match rp with
  | None => ret Void
  | Some rp =>
      (let ir := convertIntentResult rp in
       intentChosen ir ;;
       ret ir)%js
  end.

(** Calling the async function runs it up to its first [await]: the
    [waitFor] call is made, and the promise for the rest is returned. *)
Definition createResultPromise (messageOut : AgentRequest) : M World ResultPromise :=
  (record (CallWaitFor (result_filter messageOut)) ;;
   ret {| rp_filter := result_filter messageOut;
          rp_then := createResultPromise_then |})%js.

Definition raiseSpecificIntent (intent : string) (context : Context)
    (app : AppIdentifier) : M World IntentResolution :=
  (meta <- createMeta ;;
   let messageOut := RaiseIntentAgentRequest intent context app meta in
   resultPromise <- createResultPromise messageOut ;;
   resolution <- exchange messageOut "raiseIntentResponse" ;;
   let error := payload_error resolution in
   if truthy_opt (option_map em_message error)
   then throw (Error (from_option em_message "" error))
   else match payload_intentResolution resolution with
        | None => throw (TypeError "Cannot read properties of undefined (reading 'source')")
        | Some details =>
            ret {| res_resultPromise := resultPromise;
                   res_source := ird_source details;
                   res_intent := ird_intent details;
                   res_version := ird_version details |}
        end)%js.

Definition raiseIntent (intent : string) (context : Context)
    (app : option AppIdentifier) : M World IntentResolution :=
  (matched <- findIntent intent context None ;;
   match app with
   | Some app =>
       let matched := filterApps matched app in
       if (length (apps matched) =? 0)%nat && truthy_opt (instanceId app)
       then throw (Error TargetInstanceUnavailable)
       else if (length (apps matched) =? 0)%nat && truthy (appId app)
       then throw (Error TargetAppUnavailable)
       else raiseSpecificIntent intent context app
   | None =>
       match apps matched with
       | [] => throw (Error NoAppsFound)
       | [only] => raiseSpecificIntent intent context only
       | _ =>
           source <- getSource ;;
           chosentIntent <- chooseIntent [matched] source ;;
           raiseSpecificIntent (im_name (ic_intent chosentIntent)) context
             (ic_chosenApp chosentIntent)
       end
   end)%js.

Definition raiseIntentForContext (context : Context)
    (app : option AppIdentifier) : M World IntentResolution :=
  (found <- findIntentsByContext context ;;
   let matched :=
     match app with
     | Some app =>
         filter (fun m => Is_true (0 <? length (apps m))%nat)
                (map (fun m => filterApps m app) found)
     | None => found
     end in
   let resolve :=
     (source <- getSource ;;
      chosentIntent <- chooseIntent matched source ;;
      raiseSpecificIntent (im_name (ic_intent chosentIntent)) context
        (ic_chosenApp chosentIntent)) in
   match matched with
   | [] => throw (Error NoAppsFound)
   | [m] =>
       match apps m with
       | [only] => raiseSpecificIntent (im_name (IntentRouter.intent m)) context only
       | _ => resolve
       end
   | _ => resolve
   end)%js.

(** Modelled from the spec: [waitFor] (section 6) resolves to the first
    inbound message satisfying the predicate, or to absent when the
    gateway times out first; [inbound] lists, in arrival order, the
    messages that arrive after the subscription and before that timeout. *)
Definition waitFor_result (filter : RaiseIntentResultAgentResponse -> bool)
    (inbound : list RaiseIntentResultAgentResponse)
    : option RaiseIntentResultAgentResponse :=
  List.find filter inbound.

(** How the pending result settles on a given run of inbound messages. *)
Definition settle (p : ResultPromise) (inbound : list RaiseIntentResultAgentResponse)
    : M World IntentResult :=
  rp_then p (waitFor_result (rp_filter p) inbound).

End WithCollaborators.

End IntentRouter.


(** ** Vocabulary and sample data of the statements about the broadcast router *)

Module BroadcastSpec.

Import BroadcastRouter.

(** The same message under another spelling of its [type]. *)
Definition with_type (t : string) (m : AgentRequestMessage) : AgentRequestMessage :=
  {| msg_type := t; meta := meta m; payload := payload m |}.

(** The six spellings [accept] dispatches on. *)
Definition recognised_types : list string :=
  ["PrivateChannel.broadcast"; "PrivateChannel.onAddContextListener";
   "PrivateChannel.onUnsubscribe"; "broadcast"; "onAddContextListener";
   "onUnsubscribe"].

(** The spellings of the two requests that change the registrations. *)
Definition mutating_types : list string :=
  ["PrivateChannel.onAddContextListener"; "PrivateChannel.onUnsubscribe";
   "onAddContextListener"; "onUnsubscribe"].

(** The selection rule of a broadcast in the words of the specification:
    same channel, and a context type that is absent or the context's. *)
Definition listens_to (ch : string) (ctx : Context) (r : ListenerRegistration) : Prop :=
  lr_channelId r = ch /\
  (lr_contextType r = None \/ lr_contextType r = Some (ctx_type ctx)).

Global Instance listens_to_dec ch ctx r : Decision (listens_to ch ctx r).
Proof. unfold listens_to. apply _. Defined.

(** What one forwarded message carries, given the registration it is for. *)
Definition forwarded_for (arg0 : AgentRequestMessage) (r : ListenerRegistration)
    (out : AgentRequestMessage) : Prop :=
  msg_type out = msg_type arg0 /\
  payload out = payload arg0 /\
  destination (meta out)
    = Some {| dest_appId := lr_appId r; dest_instanceId := lr_instanceId r |} /\
  source (meta out) = source (meta arg0) /\
  requestUuid (meta out) = requestUuid (meta arg0) /\
  timestamp (meta out) = timestamp (meta arg0).

(** Two spellings of a type have the same effect: on every message and
    every state, the same completion, registrations and posted messages. *)
Definition same_effect (namespaced bare : string) : Prop :=
  forall (msg : AgentRequestMessage) (w : World),
    accept (with_type namespaced msg) w = accept (with_type bare msg) w.

(** Scenario A: a wildcard and an [instrument] registration of [(X, i1)] on [C1]. *)
Definition reg_wild : ListenerRegistration :=
  {| lr_appId := Some "X"; lr_instanceId := Some "i1";
     lr_channelId := "C1"; lr_contextType := None |}.

Definition reg_instrument : ListenerRegistration :=
  {| lr_appId := Some "X"; lr_instanceId := Some "i1";
     lr_channelId := "C1"; lr_contextType := Some "instrument" |}.

Definition sender : AppIdentifier := {| appId := "S"; instanceId := Some "s1" |}.

Definition sample_meta : RequestMeta :=
  {| source := Some sender; destination := None;
     requestUuid := "uuid-1"; timestamp := 1700000000000 |}.

Definition sample_context (t : string) : Context :=
  {| ctx_type := t; ctx_name := None; ctx_id := [("ticker", "AAPL")] |}.

Definition sample_broadcast (t ctype : string) : AgentRequestMessage :=
  {| msg_type := t; meta := sample_meta;
     payload := {| channelId := "C1"; contextType := None;
                   context := Some (sample_context ctype) |} |}.

(** A listener request of [(X, i1)] on [C1]. *)
Definition sample_listener_request (t : string) (ct : option string) : AgentRequestMessage :=
  {| msg_type := t;
     meta := {| source := Some {| appId := "X"; instanceId := Some "i1" |};
                destination := None; requestUuid := "uuid-2";
                timestamp := 1700000000001 |};
     payload := {| channelId := "C1"; contextType := ct; context := None |} |}.

Definition scenario_A : World :=
  {| regs := [reg_wild; reg_instrument]; posted := [] |}.

(** The spellings of each of the three requests. *)
Definition broadcast_types : list string := ["PrivateChannel.broadcast"; "broadcast"].

Definition add_types : list string :=
  ["PrivateChannel.onAddContextListener"; "onAddContextListener"].

Definition unsubscribe_types : list string :=
  ["PrivateChannel.onUnsubscribe"; "onUnsubscribe"].

(** Two listener requests name the same listener: the same sender
    [appId] and [instanceId] (or no sender at all), the same channel and the
    same context type. Request uuid, timestamp, type and the rest of the
    envelope are free to differ. *)
Definition same_listener (m1 m2 : AgentRequestMessage) : Prop :=
  option_map appId (source (meta m1)) = option_map appId (source (meta m2)) /\
  match source (meta m1), source (meta m2) with
  | Some s1, Some s2 => instanceId s1 = instanceId s2
  | Some s1, None => instanceId s1 = None
  | None, Some s2 => instanceId s2 = None
  | None, None => True
  end /\
  channelId (payload m1) = channelId (payload m2) /\
  contextType (payload m1) = contextType (payload m2).

(** What a broadcast [b] delivers to the registration [lr] alone. *)
Definition delivery (b : AgentRequestMessage) (lr : ListenerRegistration)
    : list AgentRequestMessage :=
  match context (payload b) with
  | Some ctx =>
      if decide (listens_to (channelId (payload b)) ctx lr)
      then [forwarded b lr] else []
  | None => []
  end.

(** An unsubscribe request sent later by the listener of
    [sample_listener_request]. *)
Definition sample_unsubscribe (ct : option string) : AgentRequestMessage :=
  {| msg_type := "PrivateChannel.onUnsubscribe";
     meta := {| source := Some {| appId := "X"; instanceId := Some "i1" |};
                destination := None; requestUuid := "uuid-9";
                timestamp := 1700000000900 |};
     payload := {| channelId := "C1"; contextType := ct; context := None |} |}.

End BroadcastSpec.

(** ** Vocabulary and sample data of the statements about the intent router *)

Module IntentSpec.

Import IntentRouter.

(** The AppIdentifier match rule in the words of the specification:
    [appId] equal, and [instanceId] both absent or both equal. *)
Definition matches_target (req found : AppIdentifier) : Prop :=
  appId found = appId req /\
  ((instanceId found = None /\ instanceId req = None) \/
   instanceId found = instanceId req).

Global Instance matches_target_dec req found : Decision (matches_target req found).
Proof. unfold matches_target. apply _. Defined.

(** What an inbound message must be for the subscription made for the
    request with uuid [uuid]. *)
Definition is_result_for (uuid : string) (m : RaiseIntentResultAgentResponse) : Prop :=
  rr_type m = "raiseIntentResultResponse" /\ rr_requestUuid m = uuid.

(** [m.payload?.intentResult?.channel] and [m.payload?.intentResult?.context]. *)
Definition result_channel (m : RaiseIntentResultAgentResponse) : option Channel :=
  match rr_payload m with
  | Some p => match intentResult p with
              | Some r => irp_channel r
              | None => None
              end
  | None => None
  end.

Definition result_context (m : RaiseIntentResultAgentResponse) : option Context :=
  match rr_payload m with
  | Some p => match intentResult p with
              | Some r => irp_context r
              | None => None
              end
  | None => None
  end.

(** The state after one more call. *)
Definition after_call (w : World) (c : Call) : World :=
  {| calls := calls w ++ [c]; minted := minted w |}.

(** The state after [createMeta] and then the calls [cs]. *)
Definition after_request (w : World) (cs : list Call) : World :=
  {| calls := calls w ++ CallCreateMeta :: cs; minted := S (minted w) |}.

(** Sample data. *)
Fixpoint tally (n : nat) : string :=
  match n with
  | O => EmptyString
  | S k => String.append "i" (tally k)
  end.

Definition own : AppIdentifier := {| appId := "Caller"; instanceId := Some "c1" |}.

Definition sample_meta (n : nat) : Meta :=
  {| requestUuid := String.append "req-" (tally n);
     timestamp := 1700000000000 + Z.of_nat n;
     source := own |}.

Definition viewChart : IntentMetadata :=
  {| im_name := "ViewChart"; im_displayName := Some "View Chart" |}.

Definition instrument : Context :=
  {| ctx_type := "fdc3.instrument"; ctx_name := None; ctx_id := [("ticker", "AAPL")] |}.

Definition app_A : AppIdentifier := {| appId := "A"; instanceId := None |}.
Definition app_B : AppIdentifier := {| appId := "B"; instanceId := None |}.
Definition app_A_real : AppIdentifier := {| appId := "A"; instanceId := Some "real" |}.
Definition app_A_missing : AppIdentifier := {| appId := "A"; instanceId := Some "missing" |}.

(** A target whose [instanceId] is set, to the empty string. *)
Definition app_A_blank : AppIdentifier := {| appId := "A"; instanceId := Some "" |}.

Definition agent_disconnected : ErrorMessages :=
  {| em_message := "AgentDisconnected"; em_truthy := eq_refl |}.

(** A desktop agent that answers every lookup with [found], acknowledges
    every raise with the requested app as source, and a resolver that picks
    the last candidate of the first intent. *)
Definition sample_env (found : AgentResponse) : Collaborators :=
  {| minted_meta := sample_meta;
     exchange_result := fun req _ =>
       match req with
       | RaiseIntentAgentRequest i _ app _ =>
           Return (RaiseIntentAgentResponse
                     {| ird_source := app; ird_intent := i; ird_version := None |})
       | _ => Return found
       end;
     own_source := own;
     chooseIntent_result := fun ais _ =>
       match ais with
       | ai :: _ => Return {| ic_intent := intent ai;
                              ic_chosenApp := List.last (apps ai) app_A |}
       | [] => Throw (Error "UserCancelledResolution")
       end |}.

Definition found_apps (l : list AppIdentifier) : AgentResponse :=
  FindIntentAgentResponse {| intent := viewChart; apps := l |}.

Definition start : World := {| calls := []; minted := 0 |}.

(** The state after the calls [cs]. *)
Definition after_calls (w : World) (cs : list Call) : World :=
  {| calls := calls w ++ cs; minted := minted w |}.

(** In a run of calls, every raise request handed to [exchange] comes
    directly after a [waitFor] whose predicate holds of the results for that
    request; [previous] is the call before the run. *)
Fixpoint subscribed_before_sending (previous : option Call) (l : list Call) : Prop :=
  match l with
  | [] => True
  | c :: rest =>
      match c with
      | CallExchange (RaiseIntentAgentRequest _ _ _ meta) _ =>
          match previous with
          | Some (CallWaitFor filter) =>
              forall m, filter m = true <-> is_result_for (requestUuid meta) m
          | _ => False
          end
      | _ => True
      end /\ subscribed_before_sending (Some c) rest
  end.

(** What is left of the AppIntents of a lookup by context for a target app:
    in each AppIntent the candidates that match the target, and of those
    AppIntents the ones that still have a candidate. Without a target, all of
    them as they came. *)
Definition context_candidates (app : option AppIdentifier) (found : list AppIntent)
    : list AppIntent :=
  match app with
  | Some app =>
      filter (fun ai => apps ai <> [])
             (map (fun ai => {| intent := intent ai;
                                apps := filter (matches_target app) (apps ai) |})
                  found)
  | None => found
  end.

(** A lookup by context that finds [ViewChart] at [A] and [B] and
    [ViewNews] at [B]. *)
Definition viewNews : IntentMetadata :=
  {| im_name := "ViewNews"; im_displayName := None |}.

Definition found_by_context : AgentResponse :=
  FindIntentsByContextAgentResponse
    [{| intent := viewChart; apps := [app_A; app_B] |};
     {| intent := viewNews; apps := [app_B] |}].

Definition app_C : AppIdentifier := {| appId := "C"; instanceId := None |}.

(** A result message that has a channel of a type the switch does not
    know, and a context. *)
Definition odd_channel_result : RaiseIntentResultAgentResponse :=
  {| rr_type := "raiseIntentResultResponse"; rr_requestUuid := "req-i";
     rr_payload := Some {| intentResult := Some
       {| irp_channel := Some {| ch_id := "ch-1"; ch_type := "system";
                                 ch_displayMetadata := None |};
          irp_context := Some instrument |} |} |}.

End IntentSpec.

(** ** Properties of the broadcast router *)

Section BroadcastRouterFacts.

Import BroadcastRouter BroadcastSpec.

(** [x ∈ [a; b; ...]] for an [x] that is literally in the list. *)
Ltac listed :=
  repeat first [apply list_elem_of_here | apply list_elem_of_further].

(** Case analysis along the [switch] of [accept]: [tac] closes the case of
    each spelling, with the message's type rewritten to that spelling; the
    goal left is the one of a message of no recognised type. *)
Ltac by_spelling tac :=
  repeat match goal with
  | |- context [String.eqb ?x ?t] =>
      let Heq := fresh "Heq" in
      destruct (String.eqb_spec x t) as [Heq|_]; [rewrite ?Heq in *; tac|]
  end.

Lemma loose_eq_true {A : Type} `{EqDecision A} (a b : A) :
  loose_eq a b = true <-> a = b.
Proof. unfold loose_eq. apply bool_decide_eq_true. Qed.

Lemma matches_true (a b : ListenerRegistration) :
  Is_true (matches a b) <-> a = b.
Proof.
  unfold matches. rewrite !andb_True. unfold loose_eq.
  rewrite !bool_decide_spec.
  destruct a, b; simpl; split.
  - intros [[[-> ->] ->] ->]. reflexivity.
  - intros [= -> -> -> ->]. auto.
Qed.

Lemma selected_listens_to (ch : string) (ctx : Context) (r : ListenerRegistration) :
  Is_true (selected ch (ctx_type ctx) r) <-> listens_to ch ctx r.
Proof.
  unfold selected, listens_to, loose_eq.
  rewrite andb_True, orb_True, !bool_decide_spec.
  destruct (lr_contextType r); simpl; intuition congruence.
Qed.

(** Posting one message per element appends the messages in order and
    touches nothing else. *)
Lemma forEach_sc_post {A : Type} (f : A -> AgentRequestMessage) (xs : list A) (w : World) :
  forEach xs (fun x => sc_post (f x)) w
  = (Return tt, {| regs := regs w; posted := posted w ++ map f xs |}).
Proof.
  revert w. induction xs as [|x xs IH]; intros w; simpl.
  - rewrite app_nil_r. destruct w; reflexivity.
  - unfold bind, sc_post, modify at 1. simpl. rewrite IH. simpl.
    rewrite <- app_assoc. reflexivity.
Qed.

Lemma handleBroadcast_run (t : string) (m : RequestMeta) (p : RequestPayload)
    (ctx : Context) (w : World) :
  context p = Some ctx ->
  let arg0 := {| msg_type := t; meta := m; payload := p |} in
  handleBroadcast arg0 w
  = (Return tt,
     {| regs := regs w;
        posted := posted w
                  ++ map (forwarded arg0)
                         (filter (listens_to (channelId p) ctx) (regs w)) |}).
Proof.
  intros Hctx arg0. unfold handleBroadcast. simpl. rewrite Hctx.
  unfold bind, get. rewrite forEach_sc_post. do 4 f_equal.
  apply list_filter_iff. intros r. apply selected_listens_to.
Qed.

(** C4. A broadcast on channel [ch] with context [ctx] posts one message for
    each registration on [ch] whose context type is absent or is the type of
    [ctx], in registration order and as many times as the registration occurs,
    and posts nothing else; the message posted for a registration has the
    type and payload of the inbound one, the registration's
    [{appId, instanceId}] as destination, and the inbound source, request
    uuid and timestamp. *)
Theorem handleBroadcast_fans_out (t : string) (m : RequestMeta) (ch : string)
    (ct : option string) (ctx : Context) (w : World) :
  let arg0 := {| msg_type := t; meta := m;
                 payload := {| channelId := ch; contextType := ct;
                               context := Some ctx |} |} in
  let receivers := filter (listens_to ch ctx) (regs w) in
  exists outs,
    handleBroadcast arg0 w
      = (Return tt, {| regs := regs w; posted := posted w ++ outs |}) /\
    Forall2 (forwarded_for arg0) receivers outs.
Proof.
  intros arg0 receivers. exists (map (forwarded arg0) receivers). split.
  - exact (handleBroadcast_run t m (payload arg0) ctx w eq_refl).
  - apply Forall2_fmap_r, Forall_Forall2_diag, Forall_forall.
    intros r _. repeat split.
Qed.

(** Scenario A: an [instrument] broadcast reaches [(X, i1)] twice, a
    [contact] broadcast once. *)
Example scenario_A_instrument :
  map (fun out => destination (meta out))
      (posted (handleBroadcast (sample_broadcast "broadcast" "instrument") scenario_A).2)
  = [Some {| dest_appId := Some "X"; dest_instanceId := Some "i1" |};
     Some {| dest_appId := Some "X"; dest_instanceId := Some "i1" |}].
Proof. vm_compute. reflexivity. Qed.

Example scenario_A_contact :
  map (fun out => destination (meta out))
      (posted (handleBroadcast (sample_broadcast "broadcast" "contact") scenario_A).2)
  = [Some {| dest_appId := Some "X"; dest_instanceId := Some "i1" |}].
Proof. vm_compute. reflexivity. Qed.

Lemma handleOnAddContextListener_run (arg0 : AgentRequestMessage) (w : World) :
  handleOnAddContextListener arg0 w
  = (Return tt, {| regs := regs w ++ [createListenerRegistration arg0];
                   posted := posted w |}).
Proof. reflexivity. Qed.

(** The two outcomes of an unsubscribe request. *)
Lemma handleOnUnsubscribe_run (arg0 : AgentRequestMessage) (w : World) :
  let lr := createListenerRegistration arg0 in
  ((lr ∉ regs w) /\ handleOnUnsubscribe arg0 w = (Return tt, w)) \/
  (exists before after,
     regs w = before ++ lr :: after /\ (lr ∉ before) /\
     handleOnUnsubscribe arg0 w
       = (Return tt, {| regs := before ++ after; posted := posted w |})).
Proof.
  intros lr. unfold handleOnUnsubscribe, bind, get, findIndex. fold lr.
  destruct (list_find _ (regs w)) as [[i x]|] eqn:Hfind.
  - right. apply list_find_Some in Hfind as (Hi & Hx & Hfirst).
    apply matches_true in Hx. subst x.
    exists (take i (regs w)), (drop (S i) (regs w)). split; [|split].
    + symmetry. apply take_drop_middle. exact Hi.
    + intros (j & Hj & Hlt)%elem_of_take.
      apply (Hfirst j lr Hj Hlt). apply matches_true. reflexivity.
    + replace (-1 <? Z.of_nat i) with true by (symmetry; apply Z.ltb_lt; lia).
      unfold set_regs, modify, splice1. rewrite Nat2Z.id, delete_take_drop.
      reflexivity.
  - left. apply list_find_None in Hfind. split.
    + intros Hin. rewrite Forall_forall in Hfind.
      apply (Hfind lr Hin). apply matches_true. reflexivity.
    + reflexivity.
Qed.

(** C6. An unsubscribe request posts nothing and removes at most one
    registration: the first one, in insertion order, whose four fields
    [appId], [instanceId], [channelId] and [contextType] are those of the
    request; when there is none the list stays as it is. Registrations whose
    context type is not the request's are all kept, so a wildcard unsubscribe
    (no [contextType]) takes away a wildcard registration only. *)
Theorem handleOnUnsubscribe_removes_first_identical
    (arg0 : AgentRequestMessage) (w : World) :
  let lr := createListenerRegistration arg0 in
  let w' := (handleOnUnsubscribe arg0 w).2 in
  (handleOnUnsubscribe arg0 w).1 = Return tt /\
  posted w' = posted w /\
  (((lr ∉ regs w) /\ regs w' = regs w) \/
   (exists before after,
      regs w = before ++ lr :: after /\ (lr ∉ before) /\
      regs w' = before ++ after)) /\
  (length (regs w) <= S (length (regs w')))%nat /\
  filter (fun r => lr_contextType r <> contextType (payload arg0)) (regs w')
  = filter (fun r => lr_contextType r <> contextType (payload arg0)) (regs w).
Proof.
  intros lr w'. subst w'.
  destruct (handleOnUnsubscribe_run arg0 w)
    as [[Hnone ->]|(before & after & Hregs & Hfirst & ->)]; simpl.
  - repeat split; auto.
  - repeat split.
    + right. exists before, after. auto.
    + rewrite Hregs, !length_app. simpl. lia.
    + rewrite Hregs, !filter_app. f_equal.
      rewrite filter_cons_False; [reflexivity|].
      intros Hne. apply Hne. reflexivity.
Qed.

(** With duplicates, one unsubscribe removes one of them; a wildcard
    unsubscribe leaves the typed registration alone. *)
Example unsubscribe_wildcard :
  regs (handleOnUnsubscribe (sample_listener_request "onUnsubscribe" None)
          {| regs := [reg_instrument; reg_wild; reg_wild]; posted := [] |}).2
  = [reg_instrument; reg_wild].
Proof. vm_compute. reflexivity. Qed.

(** C9. A message whose type is none of the six recognised spellings makes
    [accept] return normally, with the registrations and the posted messages
    as they were. *)
Theorem accept_ignores_unrecognised_types (msg : AgentRequestMessage) (w : World) :
  msg_type msg ∉ recognised_types ->
  accept msg w = (Return tt, w).
Proof.
  intros Hnot. unfold accept.
  by_spelling ltac:(exfalso; apply Hnot; unfold recognised_types; listed).
  reflexivity.
Qed.

Lemma accept_ignores_unrecognised_types_witness :
  accept (sample_broadcast "PrivateChannel.onDisconnect" "instrument") scenario_A
  = (Return tt, scenario_A).
Proof.
  apply accept_ignores_unrecognised_types.
  unfold recognised_types. simpl. rewrite !not_elem_of_cons.
  repeat split; try discriminate. apply not_elem_of_nil.
Defined.

Lemma handleBroadcast_regs (arg0 : AgentRequestMessage) (w : World) :
  regs (handleBroadcast arg0 w).2 = regs w.
Proof.
  destruct arg0 as [t m p]. destruct (context p) as [ctx|] eqn:Hctx.
  - rewrite (handleBroadcast_run t m p ctx w Hctx). reflexivity.
  - unfold handleBroadcast. simpl. rewrite Hctx. reflexivity.
Qed.

(** C10. Handling a broadcast leaves the list of registrations as it was,
    the same registrations in the same order; a message that [accept] answers
    by changing the list is an add-context-listener or an unsubscribe
    request. *)
Theorem handleBroadcast_preserves_registrations (arg0 : AgentRequestMessage) (w : World) :
  regs (handleBroadcast arg0 w).2 = regs w /\
  (regs (accept arg0 w).2 = regs w \/ msg_type arg0 ∈ mutating_types).
Proof.
  split; [apply handleBroadcast_regs|].
  unfold accept, mutating_types.
  by_spelling ltac:(first [left; apply handleBroadcast_regs | right; listed]).
  left. reflexivity.
Qed.

(** The claim of C8 as the specification words it fails on a broadcast: the
    message posted for the wildcard registration carries the spelling it
    came in under. *)
Lemma broadcast_spellings_differ :
  let msg := sample_broadcast "broadcast" "contact" in
  map msg_type (posted (accept (with_type "PrivateChannel.broadcast" msg) scenario_A).2)
    = ["PrivateChannel.broadcast"] /\
  map msg_type (posted (accept (with_type "broadcast" msg) scenario_A).2)
    = ["broadcast"] /\
  ~ same_effect "PrivateChannel.broadcast" "broadcast".
Proof.
  split; [reflexivity|]. split; [reflexivity|].
  intros Hsame.
  specialize (Hsame (sample_broadcast "broadcast" "contact") scenario_A).
  vm_compute in Hsame. discriminate Hsame.
Qed.

Lemma handleBroadcast_with_type (t : string) (msg : AgentRequestMessage) (w : World) :
  exists c outs,
    handleBroadcast (with_type t msg) w
    = (c, {| regs := regs w; posted := posted w ++ map (with_type t) outs |}) /\
    forall t', handleBroadcast (with_type t' msg) w
    = (c, {| regs := regs w; posted := posted w ++ map (with_type t') outs |}).
Proof.
  destruct (context (payload msg)) as [ctx|] eqn:Hctx.
  - exists (Return tt),
      (map (forwarded msg) (filter (listens_to (channelId (payload msg)) ctx) (regs w))).
    assert (Hrun : forall t', handleBroadcast (with_type t' msg) w
      = (Return tt, {| regs := regs w;
           posted := posted w ++ map (with_type t')
             (map (forwarded msg)
                (filter (listens_to (channelId (payload msg)) ctx) (regs w))) |})).
    { intros t'. unfold with_type.
      rewrite (handleBroadcast_run t' (meta msg) (payload msg) ctx w Hctx).
      rewrite map_map. reflexivity. }
    split; [apply Hrun | exact Hrun].
  - exists (Throw (TypeError "Cannot read properties of undefined (reading 'type')")), [].
    assert (Hrun : forall t', handleBroadcast (with_type t' msg) w
      = (Throw (TypeError "Cannot read properties of undefined (reading 'type')"),
         {| regs := regs w; posted := posted w ++ map (with_type t') [] |})).
    { intros t'. unfold handleBroadcast, with_type. simpl. rewrite Hctx.
      unfold throw. rewrite app_nil_r. destruct w; reflexivity. }
    split; [apply Hrun | exact Hrun].
Qed.

(** C8, amended. Each namespaced spelling is dispatched to the handler of
    its bare spelling. For add-context-listener and for unsubscribe the two
    spellings have the same effect. For a broadcast they complete alike,
    leave the registrations alike and post to the same receivers messages
    that agree in everything but their [type], which is the spelling the
    broadcast came in under. *)
Theorem accept_spellings_route_alike (msg : AgentRequestMessage) (w : World) :
  same_effect "PrivateChannel.onAddContextListener" "onAddContextListener" /\
  same_effect "PrivateChannel.onUnsubscribe" "onUnsubscribe" /\
  accept (with_type "PrivateChannel.broadcast" msg) w
    = handleBroadcast (with_type "PrivateChannel.broadcast" msg) w /\
  accept (with_type "broadcast" msg) w
    = handleBroadcast (with_type "broadcast" msg) w /\
  exists c outs,
    accept (with_type "PrivateChannel.broadcast" msg) w
    = (c, {| regs := regs w;
             posted := posted w ++ map (with_type "PrivateChannel.broadcast") outs |}) /\
    accept (with_type "broadcast" msg) w
    = (c, {| regs := regs w;
             posted := posted w ++ map (with_type "broadcast") outs |}).
Proof.
  split; [|split; [|split; [|split]]].
  - intros m s. reflexivity.
  - intros m s. reflexivity.
  - reflexivity.
  - reflexivity.
  - destruct (handleBroadcast_with_type "broadcast" msg w) as (c & outs & _ & Hall).
    exists c, outs. split.
    + exact (Hall "PrivateChannel.broadcast").
    + exact (Hall "broadcast").
Qed.

(** *** Further properties of the handler *)

(** Where [accept] sends a message. *)
Lemma accept_cases (msg : AgentRequestMessage) (w : World) :
  (msg_type msg ∈ broadcast_types /\ accept msg w = handleBroadcast msg w) \/
  (msg_type msg ∈ add_types /\ accept msg w = handleOnAddContextListener msg w) \/
  (msg_type msg ∈ unsubscribe_types /\ accept msg w = handleOnUnsubscribe msg w) \/
  ((msg_type msg ∉ recognised_types) /\ accept msg w = (Return tt, w)).
Proof.
  unfold accept, broadcast_types, add_types, unsubscribe_types.
  destruct (String.eqb_spec (msg_type msg) "PrivateChannel.broadcast") as [->|N1];
    [left; split; [listed|reflexivity]|].
  destruct (String.eqb_spec (msg_type msg) "PrivateChannel.onAddContextListener")
    as [->|N2]; [right; left; split; [listed|reflexivity]|].
  destruct (String.eqb_spec (msg_type msg) "PrivateChannel.onUnsubscribe") as [->|N3];
    [right; right; left; split; [listed|reflexivity]|].
  destruct (String.eqb_spec (msg_type msg) "broadcast") as [->|N4];
    [left; split; [listed|reflexivity]|].
  destruct (String.eqb_spec (msg_type msg) "onAddContextListener") as [->|N5];
    [right; left; split; [listed|reflexivity]|].
  destruct (String.eqb_spec (msg_type msg) "onUnsubscribe") as [->|N6];
    [right; right; left; split; [listed|reflexivity]|].
  right. right. right. split; [|reflexivity].
  unfold recognised_types. rewrite !not_elem_of_cons.
  repeat split; try assumption. apply not_elem_of_nil.
Qed.

Lemma accept_broadcast (msg : AgentRequestMessage) (w : World) :
  msg_type msg ∈ broadcast_types -> accept msg w = handleBroadcast msg w.
Proof.
  unfold broadcast_types. rewrite !elem_of_cons, elem_of_nil.
  unfold accept. intros [->|[->|[]]]; reflexivity.
Qed.

Lemma accept_add (msg : AgentRequestMessage) (w : World) :
  msg_type msg ∈ add_types -> accept msg w = handleOnAddContextListener msg w.
Proof.
  unfold add_types. rewrite !elem_of_cons, elem_of_nil.
  unfold accept. intros [->|[->|[]]]; reflexivity.
Qed.

Lemma accept_unsubscribe (msg : AgentRequestMessage) (w : World) :
  msg_type msg ∈ unsubscribe_types -> accept msg w = handleOnUnsubscribe msg w.
Proof.
  unfold unsubscribe_types. rewrite !elem_of_cons, elem_of_nil.
  unfold accept. intros [->|[->|[]]]; reflexivity.
Qed.

(** The two ways a broadcast ends. *)
Lemma handleBroadcast_cases (b : AgentRequestMessage) (w : World) :
  (context (payload b) = None /\
   handleBroadcast b w
   = (Throw (TypeError "Cannot read properties of undefined (reading 'type')"), w)) \/
  (exists ctx,
     context (payload b) = Some ctx /\
     handleBroadcast b w
     = (Return tt,
        {| regs := regs w;
           posted := posted w
                     ++ map (forwarded b)
                            (filter (listens_to (channelId (payload b)) ctx) (regs w)) |})).
Proof.
  destruct b as [t m p]. destruct (context p) as [ctx|] eqn:Hctx.
  - right. exists ctx. split; [exact Hctx|].
    apply (handleBroadcast_run t m p ctx w Hctx).
  - left. split; [exact Hctx|].
    unfold handleBroadcast. simpl. rewrite Hctx. reflexivity.
Qed.

Lemma same_listener_registration (m1 m2 : AgentRequestMessage) :
  same_listener m1 m2 <-> createListenerRegistration m1 = createListenerRegistration m2.
Proof.
  unfold same_listener, createListenerRegistration.
  destruct (source (meta m1)) as [s1|], (source (meta m2)) as [s2|]; simpl; split.
  all: try (intros (Happ & Hinst & Hchannel & Htype); congruence).
  all: intros Heq; inversion Heq; repeat split; congruence.
Qed.

Lemma first_occurrence_unique {A : Type} (x : A) (l1 l2 k1 k2 : list A) :
  l1 ++ x :: l2 = k1 ++ x :: k2 -> x ∉ l1 -> x ∉ k1 -> l1 = k1 /\ l2 = k2.
Proof.
  revert k1. induction l1 as [|a l1 IH]; intros [|b k1]; simpl.
  - intros [= ->] _ _. split; reflexivity.
  - intros [= <- _] _ Hk. exfalso. apply Hk. apply list_elem_of_here.
  - intros [= -> _] Hl _. exfalso. apply Hl. apply list_elem_of_here.
  - intros [= -> Heq] Hl Hk.
    apply not_elem_of_cons in Hl as [_ Hl]. apply not_elem_of_cons in Hk as [_ Hk].
    destruct (IH k1 Heq Hl Hk) as [-> ->]. split; reflexivity.
Qed.

(** X1. A listener that is added and then unsubscribed, by requests that
    name the same sender, channel and context type (whatever their uuid,
    timestamp or spelling), leaves the registrations as they were up to
    order, and exactly as they were when that listener was not registered
    before; nothing is posted. *)
Theorem add_then_unsubscribe (add unsub : AgentRequestMessage) (w : World) :
  msg_type add ∈ add_types ->
  msg_type unsub ∈ unsubscribe_types ->
  same_listener add unsub ->
  let w1 := (accept add w).2 in
  let w2 := (accept unsub w1).2 in
  regs w2 ≡ₚ regs w /\
  posted w2 = posted w /\
  ((createListenerRegistration add ∉ regs w) -> regs w2 = regs w).
Proof.
  intros Hadd Hunsub Hsame w1 w2. subst w1 w2.
  rewrite (accept_add add w Hadd), handleOnAddContextListener_run. simpl.
  rewrite (accept_unsubscribe unsub _ Hunsub).
  apply same_listener_registration in Hsame.
  set (w1 := {| regs := regs w ++ [createListenerRegistration add]; posted := posted w |}).
  destruct (handleOnUnsubscribe_run unsub w1)
    as [[Hnone _]|(before & after & Hregs & Hfirst & ->)].
  - exfalso. apply Hnone. rewrite <- Hsame. simpl.
    apply elem_of_app. right. apply list_elem_of_here.
  - rewrite <- Hsame in *. simpl in *. split; [|split].
    + apply (Permutation_cons_inv (a := createListenerRegistration add)).
      rewrite Permutation_middle, <- Hregs.
      symmetry. apply Permutation_cons_append.
    + reflexivity.
    + intros Hfresh.
      assert (Hsplit : regs w ++ createListenerRegistration add :: [] = before
                       ++ createListenerRegistration add :: after) by exact Hregs.
      destruct (first_occurrence_unique _ _ _ _ _ Hsplit Hfresh Hfirst) as [<- <-].
      apply app_nil_r.
Qed.

Lemma add_then_unsubscribe_witness :
  regs (accept (sample_unsubscribe (Some "instrument"))
          (accept (sample_listener_request "onAddContextListener" (Some "instrument"))
             scenario_A).2).2
  ≡ₚ regs scenario_A.
Proof.
  refine (proj1 (add_then_unsubscribe
                   (sample_listener_request "onAddContextListener" (Some "instrument"))
                   (sample_unsubscribe (Some "instrument")) scenario_A _ _ _)).
  - unfold add_types. simpl. listed.
  - unfold unsubscribe_types. simpl. listed.
  - repeat split.
Defined.

(** X2. Adding a listener changes what a later broadcast posts by exactly
    the delivery to that listener, appended last: one forwarded message
    when the broadcast is on the listener's channel and its context type is
    the listener's or the listener has none, and nothing otherwise. *)
Theorem add_then_broadcast (add b : AgentRequestMessage) (w : World) :
  msg_type add ∈ add_types ->
  msg_type b ∈ broadcast_types ->
  let w1 := (accept add w).2 in
  posted (accept b w1).2
  = posted (accept b w).2 ++ delivery b (createListenerRegistration add).
Proof.
  intros Hadd Hb w1. subst w1.
  rewrite (accept_add add w Hadd), handleOnAddContextListener_run. simpl.
  rewrite !(accept_broadcast b _ Hb). unfold delivery.
  destruct (handleBroadcast_cases b w) as [[Hctx ->]|(ctx & Hctx & ->)];
    destruct (handleBroadcast_cases b
                {| regs := regs w ++ [createListenerRegistration add];
                   posted := posted w |}) as [[Hctx' ->]|(ctx' & Hctx' & ->)];
    rewrite Hctx in *; try discriminate; simpl.
  - rewrite app_nil_r. reflexivity.
  - injection Hctx' as <-.
    rewrite filter_app, map_app, app_assoc. f_equal.
    rewrite filter_cons, filter_nil.
    destruct (decide (listens_to (channelId (payload b)) ctx
                        (createListenerRegistration add))); reflexivity.
Qed.

Lemma add_then_broadcast_witness :
  posted (accept (sample_broadcast "broadcast" "instrument")
            (accept (sample_listener_request "onAddContextListener" (Some "instrument"))
               scenario_A).2).2
  = posted (accept (sample_broadcast "broadcast" "instrument") scenario_A).2
    ++ [forwarded (sample_broadcast "broadcast" "instrument") reg_instrument].
Proof.
  rewrite (add_then_broadcast
             (sample_listener_request "onAddContextListener" (Some "instrument"))
             (sample_broadcast "broadcast" "instrument") scenario_A).
  - reflexivity.
  - unfold add_types. simpl. listed.
  - unfold broadcast_types. simpl. listed.
Defined.




(** X5. Whatever the message, [accept] keeps the messages posted before
    and posts after them only copies of the inbound message addressed to
    listeners registered on the message's channel: each new post has the
    inbound type, payload, source, request uuid and timestamp, and the
    [appId] and [instanceId] of such a registration as its destination. *)
Theorem accept_posts_only_forwards (msg : AgentRequestMessage) (w : World) :
  exists outs,
    posted (accept msg w).2 = posted w ++ outs /\
    Forall (fun out =>
              exists r, r ∈ regs w /\
                        lr_channelId r = channelId (payload msg) /\
                        forwarded_for msg r out) outs.
Proof.
  destruct (accept_cases msg w)
    as [[Hb ->]|[[Hadd ->]|[[Hunsub ->]|[Hother ->]]]].
  - destruct (handleBroadcast_cases msg w) as [[Hctx ->]|(ctx & Hctx & ->)]; simpl.
    + exists []. rewrite app_nil_r. split; [reflexivity|constructor].
    + eexists. split; [reflexivity|].
      apply Forall_forall. intros out Hout.
      apply list_elem_of_fmap in Hout as (r & -> & Hr).
      apply list_elem_of_filter in Hr as [[Hchannel _] Hr].
      exists r. repeat split; assumption.
  - rewrite handleOnAddContextListener_run. simpl.
    exists []. rewrite app_nil_r. split; [reflexivity|constructor].
  - exists []. rewrite app_nil_r. split; [|constructor].
    destruct (handleOnUnsubscribe_run msg w) as [[_ ->]|(? & ? & _ & _ & ->)];
      reflexivity.
  - exists []. rewrite app_nil_r. split; [reflexivity|constructor].
Qed.


End BroadcastRouterFacts.

(** ** Properties of the intent router *)

Section IntentRouterFacts.

Import IntentRouter IntentSpec.

Lemma matchAppId_matches_target (found req : AppIdentifier) :
  Is_true (matchAppId found req) <-> matches_target req found.
Proof.
  unfold matchAppId, matches_target, loose_eq.
  rewrite andb_True, orb_True, andb_True, !bool_decide_spec.
  destruct (instanceId found), (instanceId req); simpl; intuition congruence.
Qed.

Lemma length_zero_nil {A : Type} (l : list A) :
  (length l =? 0)%nat = true <-> l = [].
Proof. destruct l; simpl; split; congruence. Qed.

Lemma snoc_snoc {A : Type} (l : list A) (a : A) (rest : list A) :
  (l ++ [a]) ++ rest = l ++ a :: rest.
Proof. rewrite <- app_assoc. reflexivity. Qed.

Lemma truthy_error (e : ErrorMessages) :
  truthy_opt (option_map em_message (Some e)) = true.
Proof. simpl. apply em_truthy. Qed.

(** Unfolds the calls on the gateway down to the state they leave. *)
Ltac run_calls :=
  unfold bind, createMeta, exchange, bind, record, modify, lift, ret; simpl;
  rewrite ?snoc_snoc.

(** [findIntent], once the gateway has answered. *)
Lemma findIntent_run (env : Collaborators) (intent : string) (context : Context) (resultType : option string)
    (w : World) (result : AgentResponse) :
  let messageOut :=
    FindIntentAgentRequest intent context resultType (minted_meta env (minted w)) in
  exchange_result env messageOut "findIntentResponse" = Return result ->
  findIntent env intent context resultType w
  = (match result with
     | AgentErrorResponse e => Throw (Error (em_message e))
     | FindIntentAgentResponse ai =>
         if (length (apps ai) =? 0)%nat then Throw (Error NoAppsFound)
         else Return {| intent := IntentRouter.intent ai; apps := apps ai |}
     | _ => Throw (TypeError "Cannot read properties of undefined (reading 'apps')")
     end,
     after_request w [CallExchange messageOut "findIntentResponse"]).
Proof.
  intros messageOut Hresult.
  unfold findIntent. run_calls. fold messageOut. rewrite Hresult. unfold after_request.
  destruct result as [ai|ais|d|e]; simpl; try reflexivity.
  - destruct (length (apps ai) =? 0)%nat; reflexivity.
  - rewrite em_truthy. reflexivity.
Qed.

Lemma findIntent_rejected (env : Collaborators) (intent : string) (context : Context) (resultType : option string)
    (w : World) (e : Thrown) :
  let messageOut :=
    FindIntentAgentRequest intent context resultType (minted_meta env (minted w)) in
  exchange_result env messageOut "findIntentResponse" = Throw e ->
  findIntent env intent context resultType w
  = (Throw e, after_request w [CallExchange messageOut "findIntentResponse"]).
Proof.
  intros messageOut Hresult.
  unfold findIntent. run_calls. fold messageOut. rewrite Hresult. reflexivity.
Qed.

(** C7. Once the gateway has answered the lookup request: a response with
    an [error] field makes [findIntent] fail with an [Error] carrying that
    message; a response without one whose candidate list is empty makes it
    fail with [NoAppsFound]; any other response makes it return the response's
    intent and candidate list. *)
Theorem findIntent_outcomes (env : Collaborators) (intent : string) (context : Context)
    (resultType : option string) (w : World) (result : AgentResponse) :
  let messageOut :=
    FindIntentAgentRequest intent context resultType (minted_meta env (minted w)) in
  exchange_result env messageOut "findIntentResponse" = Return result ->
  (forall e, result = AgentErrorResponse e ->
     (findIntent env intent context resultType w).1 = Throw (Error (em_message e))) /\
  (forall ai, result = FindIntentAgentResponse ai -> apps ai = [] ->
     (findIntent env intent context resultType w).1 = Throw (Error NoAppsFound)) /\
  (forall ai, result = FindIntentAgentResponse ai -> apps ai <> [] ->
     (findIntent env intent context resultType w).1
     = Return {| intent := IntentRouter.intent ai; apps := apps ai |}).
Proof.
  intros messageOut Hresult.
  rewrite (findIntent_run env intent context resultType w result Hresult). simpl.
  split; [|split].
  - intros e ->. reflexivity.
  - intros ai -> Hnil. rewrite Hnil. reflexivity.
  - intros ai -> Hne. destruct (apps ai) as [|a l]; [contradiction|reflexivity].
Qed.

Lemma findIntent_outcomes_witness :
  (findIntent (sample_env (AgentErrorResponse agent_disconnected))
     "ViewChart" instrument None start).1
  = Throw (Error "AgentDisconnected").
Proof.
  exact (proj1 (findIntent_outcomes (sample_env (AgentErrorResponse agent_disconnected))
                  "ViewChart" instrument None start
                  (AgentErrorResponse agent_disconnected) eq_refl)
               agent_disconnected eq_refl).
Defined.

Example findIntent_no_apps :
  (findIntent (sample_env (found_apps [])) "ViewChart" instrument None start).1
  = Throw (Error "NoAppsFound").
Proof. vm_compute. reflexivity. Qed.

Example findIntent_two_apps :
  (findIntent (sample_env (found_apps [app_A; app_B])) "ViewChart" instrument None start).1
  = Return {| intent := viewChart; apps := [app_A; app_B] |}.
Proof. vm_compute. reflexivity. Qed.

Lemma findIntentsByContext_run (env : Collaborators) (context : Context) (w : World) :
  let messageOut := FindIntentsByContextAgentRequest context (minted_meta env (minted w)) in
  findIntentsByContext env context w
  = (match exchange_result env messageOut "findIntentsByContextResponse" with
     | Return (FindIntentsByContextAgentResponse ais) =>
         if (length ais =? 0)%nat then Throw (Error NoAppsFound) else Return ais
     | Return _ => Throw (TypeError "Cannot read properties of undefined (reading 'length')")
     | Throw e => Throw e
     end,
     after_request w [CallExchange messageOut "findIntentsByContextResponse"]).
Proof.
  intros messageOut.
  unfold findIntentsByContext. run_calls. fold messageOut. unfold after_request.
  destruct (exchange_result env messageOut "findIntentsByContextResponse") as [r|e];
    [|reflexivity].
  destruct r as [ai|ais|d|e]; simpl; try reflexivity.
  destruct (length ais =? 0)%nat; reflexivity.
Qed.

(** The claim of C2 fails for [findIntentsByContext]: an AppIntent without
    candidates comes back as part of a successful result. *)
Lemma findIntentsByContext_returns_empty_candidates :
  let unsupported := {| intent := viewChart; apps := [] |} in
  (findIntentsByContext (sample_env (FindIntentsByContextAgentResponse [unsupported]))
     instrument start).1
  = Return [unsupported].
Proof. vm_compute. reflexivity. Qed.

(** C2, amended. A successful result of [findIntent] has a candidate list
    that is not empty, and a response with an empty candidate list makes it
    fail with [NoAppsFound]. A successful result of [findIntentsByContext] is
    the response's list of AppIntents as it came, and is not empty; a response
    with no AppIntent makes it fail with [NoAppsFound]. *)
Theorem lookups_surface_empty_results (env : Collaborators) (intent : string)
    (context : Context) (resultType : option string) (w : World) :
  (forall ai w', findIntent env intent context resultType w = (Return ai, w') ->
     apps ai <> []) /\
  (forall ai,
     exchange_result env
       (FindIntentAgentRequest intent context resultType (minted_meta env (minted w)))
       "findIntentResponse" = Return (FindIntentAgentResponse ai) ->
     apps ai = [] ->
     (findIntent env intent context resultType w).1 = Throw (Error NoAppsFound)) /\
  (forall ais w', findIntentsByContext env context w = (Return ais, w') ->
     ais <> [] /\
     exchange_result env
       (FindIntentsByContextAgentRequest context (minted_meta env (minted w)))
       "findIntentsByContextResponse" = Return (FindIntentsByContextAgentResponse ais)) /\
  (exchange_result env
     (FindIntentsByContextAgentRequest context (minted_meta env (minted w)))
     "findIntentsByContextResponse" = Return (FindIntentsByContextAgentResponse []) ->
   (findIntentsByContext env context w).1 = Throw (Error NoAppsFound)).
Proof.
  split; [|split; [|split]].
  - intros ai w' Hrun.
    destruct (exchange_result env
                (FindIntentAgentRequest intent context resultType
                   (minted_meta env (minted w))) "findIntentResponse")
      as [result|e] eqn:Hresult.
    + rewrite (findIntent_run env intent context resultType w result Hresult) in Hrun.
      destruct result as [ai0|ais|d|e]; try discriminate.
      destruct (apps ai0) as [|a l] eqn:Happs; simpl in Hrun; [discriminate|].
      injection Hrun as <- _. simpl. discriminate.
    + rewrite (findIntent_rejected env intent context resultType w e Hresult) in Hrun.
      discriminate.
  - intros ai Hresult Hnil.
    rewrite (findIntent_run env intent context resultType w _ Hresult). simpl.
    rewrite Hnil. reflexivity.
  - intros ais w' Hrun. rewrite findIntentsByContext_run in Hrun.
    destruct (exchange_result env _ "findIntentsByContextResponse") as [r|e];
      [|discriminate].
    destruct r as [ai|ais0|d|e]; try discriminate.
    destruct ais0 as [|a l]; simpl in Hrun; [discriminate|].
    injection Hrun as <- _. split; [discriminate|reflexivity].
  - intros Hresult. rewrite findIntentsByContext_run, Hresult. reflexivity.
Qed.

Lemma result_filter_is_result_for (messageOut : AgentRequest)
    (m : RaiseIntentResultAgentResponse) :
  result_filter messageOut m = true
  <-> is_result_for (requestUuid (request_meta messageOut)) m.
Proof.
  unfold result_filter, is_result_for.
  rewrite andb_true_iff, !loose_eq_true. reflexivity.
Qed.

(** The calls of [raiseSpecificIntent], whatever the gateway answers. *)
Lemma raiseSpecificIntent_calls (env : Collaborators) (intent : string)
    (context : Context) (app : AppIdentifier) (w : World) :
  let messageOut := RaiseIntentAgentRequest intent context app (minted_meta env (minted w)) in
  (raiseSpecificIntent env intent context app w).2
  = after_request w [CallWaitFor (result_filter messageOut);
                     CallExchange messageOut "raiseIntentResponse"].
Proof.
  intros messageOut.
  unfold raiseSpecificIntent, createResultPromise. run_calls.
  fold messageOut. unfold after_request.
  destruct (exchange_result env messageOut "raiseIntentResponse") as [r|e];
    [|reflexivity].
  destruct r as [ai|ais|d|e]; simpl; try reflexivity.
  rewrite em_truthy. reflexivity.
Qed.

(** The resolution handed back wraps the promise made before the request
    was sent. *)
Lemma raiseSpecificIntent_promise (env : Collaborators) (intent : string)
    (context : Context) (app : AppIdentifier) (w w' : World)
    (resolution : IntentResolution) :
  raiseSpecificIntent env intent context app w = (Return resolution, w') ->
  res_resultPromise resolution
  = {| rp_filter := result_filter
         (RaiseIntentAgentRequest intent context app (minted_meta env (minted w)));
       rp_then := createResultPromise_then |}.
Proof.
  unfold raiseSpecificIntent, createResultPromise. run_calls.
  destruct (exchange_result env _ "raiseIntentResponse") as [r|e]; [|discriminate].
  destruct r as [ai|ais|d|e]; simpl; try discriminate.
  - intros [= <- _]. reflexivity.
  - rewrite em_truthy. discriminate.
Qed.

(** C3. Every execution of [raiseSpecificIntent] makes exactly three calls
    on the gateway, in this order: [createMeta], then [waitFor] with a
    predicate that holds of the messages of type [raiseIntentResultResponse]
    whose request uuid is the request's, then [exchange] with the raise
    request. The subscription is there before the request is sent. *)
Theorem raiseSpecificIntent_subscribes_before_sending (env : Collaborators)
    (intent : string) (context : Context) (app : AppIdentifier) (w : World) :
  let meta := minted_meta env (minted w) in
  let messageOut := RaiseIntentAgentRequest intent context app meta in
  exists filter,
    calls (raiseSpecificIntent env intent context app w).2
    = calls w ++ [CallCreateMeta; CallWaitFor filter;
                  CallExchange messageOut "raiseIntentResponse"] /\
    forall m, filter m = true <-> is_result_for (requestUuid meta) m.
Proof.
  intros meta messageOut. exists (result_filter messageOut). split.
  - rewrite raiseSpecificIntent_calls. reflexivity.
  - intros m. apply result_filter_is_result_for.
Qed.

Lemma filterApps_matches_target (matched : AppIntent) (app : AppIdentifier) :
  apps (filterApps matched app) = filter (matches_target app) (apps matched).
Proof.
  unfold filterApps. simpl. apply list_filter_iff.
  intros a. apply matchAppId_matches_target.
Qed.

Lemma raiseIntent_target_run (env : Collaborators) (intent : string) (context : Context)
    (app : AppIdentifier) (w w' : World) (matched : AppIntent) :
  findIntent env intent context None w = (Return matched, w') ->
  raiseIntent env intent context (Some app) w
  = (if (length (apps (filterApps matched app)) =? 0)%nat && truthy_opt (instanceId app)
     then throw (Error TargetInstanceUnavailable)
     else if (length (apps (filterApps matched app)) =? 0)%nat && truthy (appId app)
     then throw (Error TargetAppUnavailable)
     else raiseSpecificIntent env intent context app) w'.
Proof.
  intros Hfound. unfold raiseIntent, bind at 1. rewrite Hfound. reflexivity.
Qed.

(** A failing lookup is the failure of [raiseIntent]. *)
Lemma raiseIntent_lookup_failed (env : Collaborators) (intent : string)
    (context : Context) (app : option AppIdentifier) (w w' : World) (e : Thrown) :
  findIntent env intent context None w = (Throw e, w') ->
  raiseIntent env intent context app w = (Throw e, w').
Proof.
  intros Hfound. unfold raiseIntent, bind at 1. rewrite Hfound. reflexivity.
Qed.

(** The claim of C1 fails for a target whose [instanceId] is set to the
    empty string: no candidate matches it, and the call fails with
    [TargetAppUnavailable]. *)
Lemma raiseIntent_blank_instanceId :
  let env := sample_env (found_apps [app_B]) in
  (findIntent env "ViewChart" instrument None start).1
    = Return {| intent := viewChart; apps := [app_B] |} /\
  filter (matches_target app_A_blank) [app_B] = [] /\
  instanceId app_A_blank = Some "" /\
  (raiseIntent env "ViewChart" instrument (Some app_A_blank) start).1
    = Throw (Error TargetAppUnavailable) /\
  (raiseIntent env "ViewChart" instrument (Some app_A_blank) start).1
    <> Throw (Error TargetInstanceUnavailable).
Proof. vm_compute. repeat split; discriminate. Qed.

(** C1, amended. When [raiseIntent] is given a target app and the lookup
    returns, the candidates are filtered by the AppIdentifier match rule.
    With no candidate left, the call fails with [TargetInstanceUnavailable]
    when the target's [instanceId] is a non-empty string, and with
    [TargetAppUnavailable] when it is not and the target's [appId] is a
    non-empty string. In every other case the call is that of
    [raiseSpecificIntent] on the target as supplied: the raise request sent
    through [exchange] names that target. *)
Theorem raiseIntent_with_target (env : Collaborators) (intent : string)
    (context : Context) (app : AppIdentifier) (w w' : World) (matched : AppIntent) :
  findIntent env intent context None w = (Return matched, w') ->
  let candidates := filter (matches_target app) (apps matched) in
  let messageOut := RaiseIntentAgentRequest intent context app (minted_meta env (minted w')) in
  apps (filterApps matched app) = candidates /\
  (candidates = [] -> truthy_opt (instanceId app) = true ->
   raiseIntent env intent context (Some app) w
   = (Throw (Error TargetInstanceUnavailable), w')) /\
  (candidates = [] -> truthy_opt (instanceId app) = false -> truthy (appId app) = true ->
   raiseIntent env intent context (Some app) w
   = (Throw (Error TargetAppUnavailable), w')) /\
  (candidates <> [] \/ (truthy_opt (instanceId app) = false /\ truthy (appId app) = false) ->
   raiseIntent env intent context (Some app) w
   = raiseSpecificIntent env intent context app w' /\
   calls (raiseIntent env intent context (Some app) w).2
   = calls w' ++ [CallCreateMeta; CallWaitFor (result_filter messageOut);
                  CallExchange messageOut "raiseIntentResponse"]).
Proof.
  intros Hfound candidates messageOut.
  rewrite (raiseIntent_target_run env intent context app w w' matched Hfound).
  rewrite filterApps_matches_target. fold candidates.
  split; [reflexivity|]. split; [|split].
  - intros -> ->. reflexivity.
  - intros -> -> ->. reflexivity.
  - intros Hother.
    assert (Hraise :
      (if (length candidates =? 0)%nat && truthy_opt (instanceId app)
       then throw (Error TargetInstanceUnavailable)
       else if (length candidates =? 0)%nat && truthy (appId app)
       then throw (Error TargetAppUnavailable)
       else raiseSpecificIntent env intent context app) w'
      = raiseSpecificIntent env intent context app w').
    { destruct Hother as [Hne|[-> ->]].
      - destruct candidates; [contradiction|reflexivity].
      - rewrite !andb_false_r. reflexivity. }
    rewrite Hraise. split; [reflexivity|].
    rewrite raiseSpecificIntent_calls. reflexivity.
Qed.

(** Scenario C. *)
Lemma raiseIntent_with_target_witness :
  (raiseIntent (sample_env (found_apps [app_A_real])) "ViewChart" instrument
     (Some app_A_missing) start).1
  = Throw (Error "TargetInstanceUnavailable").
Proof.
  pose proof (raiseIntent_with_target (sample_env (found_apps [app_A_real]))
                "ViewChart" instrument app_A_missing start
                (findIntent (sample_env (found_apps [app_A_real]))
                   "ViewChart" instrument None start).2
                {| intent := viewChart; apps := [app_A_real] |} eq_refl) as H.
  destruct H as (_ & Hinstance & _).
  rewrite Hinstance; reflexivity.
Defined.

Example raiseIntent_only_appId :
  (raiseIntent (sample_env (found_apps [app_B])) "ViewChart" instrument
     (Some app_A) start).1
  = Throw (Error "TargetAppUnavailable").
Proof. vm_compute. reflexivity. Qed.

(** Scenario B. *)
Example raiseIntent_asks_the_resolver :
  let run := raiseIntent (sample_env (found_apps [app_A; app_B])) "ViewChart"
               instrument None start in
  match run.1 with
  | Return resolution => appId (res_source resolution)
  | Throw _ => ""
  end = "B" /\
  In (CallChooseIntent [{| intent := viewChart; apps := [app_A; app_B] |}] own)
     (calls run.2).
Proof. vm_compute. split; [reflexivity|]. right. right. right. left. reflexivity. Qed.

Lemma waitFor_result_first (filter : RaiseIntentResultAgentResponse -> bool)
    (earlier later : list RaiseIntentResultAgentResponse)
    (m : RaiseIntentResultAgentResponse) :
  Forall (fun x => filter x <> true) earlier -> filter m = true ->
  waitFor_result filter (earlier ++ m :: later) = Some m.
Proof.
  unfold waitFor_result. intros Hearlier Hm.
  induction Hearlier as [|x l Hx _ IH]; simpl.
  - rewrite Hm. reflexivity.
  - destruct (filter x); [contradiction|exact IH].
Qed.

Lemma waitFor_result_timeout (filter : RaiseIntentResultAgentResponse -> bool)
    (inbound : list RaiseIntentResultAgentResponse) :
  Forall (fun x => filter x <> true) inbound ->
  waitFor_result filter inbound = None.
Proof.
  unfold waitFor_result. intros Hnone.
  induction Hnone as [|x l Hx _ IH]; simpl; [reflexivity|].
  destruct (filter x); [contradiction|exact IH].
Qed.

(** The conversion of a result payload, by the fields it has. *)
Lemma convertIntentResult_cases (m : RaiseIntentResultAgentResponse) :
  match result_channel m, result_context m with
  | Some c, _ =>
      (ch_type c = "app" \/ ch_type c = "user" ->
       convertIntentResult m = DefaultChannel (ch_id c) (ch_type c) (ch_displayMetadata c)) /\
      (ch_type c = "private" -> convertIntentResult m = DefaultPrivateChannel (ch_id c))
  | None, Some ctx => convertIntentResult m = ContextResult ctx
  | None, None => convertIntentResult m = Void
  end.
Proof.
  unfold result_channel, result_context, convertIntentResult.
  destruct (rr_payload m) as [p|]; [|reflexivity].
  destruct (intentResult p) as [r|]; [|reflexivity].
  destruct (irp_channel r) as [c|].
  - split.
    + intros [-> | ->]; reflexivity.
    + intros ->. reflexivity.
  - destruct (irp_context r); reflexivity.
Qed.

(** A channel of a type other than [app], [user] and [private] falls
    through the switch: the result is absent. *)
Lemma convertIntentResult_other_channel (m : RaiseIntentResultAgentResponse) (c : Channel) :
  result_channel m = Some c ->
  ch_type c <> "app" -> ch_type c <> "user" -> ch_type c <> "private" ->
  convertIntentResult m = Void.
Proof.
  unfold result_channel, convertIntentResult.
  destruct (rr_payload m) as [p|]; [|discriminate].
  destruct (intentResult p) as [r|]; [|discriminate].
  intros -> Happ Huser Hprivate.
  apply String.eqb_neq in Happ, Huser, Hprivate.
  rewrite Happ, Huser, Hprivate. reflexivity.
Qed.

(** C5. The promise that [createResultPromise] returns for a request waits
    for the messages of type [raiseIntentResultResponse] that carry the
    request's uuid. When such a message is observed, the first one is
    converted (a [DefaultChannel] for a channel of type [app] or [user], a
    [DefaultPrivateChannel] for one of type [private], the context when there
    is no channel, absent when there is neither), [intentChosen] is called
    once with the result, and the promise resolves to it. When none is
    observed the promise resolves to absent and no call is made. In no case
    does the promise reject. *)
Theorem result_promise_settles (messageOut : AgentRequest) (w : World) :
  let uuid := requestUuid (request_meta messageOut) in
  exists p,
    (createResultPromise messageOut w).1 = Return p /\
    (forall m, rp_filter p m = true <-> is_result_for uuid m) /\
    (forall earlier m later w1,
       Forall (fun x => ~ is_result_for uuid x) earlier -> is_result_for uuid m ->
       settle p (earlier ++ m :: later) w1
       = (Return (convertIntentResult m),
          after_call w1 (CallIntentChosen (convertIntentResult m)))) /\
    (forall inbound w1,
       Forall (fun x => ~ is_result_for uuid x) inbound ->
       settle p inbound w1 = (Return Void, w1)) /\
    (forall inbound w1, exists ir, (settle p inbound w1).1 = Return ir) /\
    (forall m,
       match result_channel m, result_context m with
       | Some c, _ =>
           (ch_type c = "app" \/ ch_type c = "user" ->
            convertIntentResult m
            = DefaultChannel (ch_id c) (ch_type c) (ch_displayMetadata c)) /\
           (ch_type c = "private" ->
            convertIntentResult m = DefaultPrivateChannel (ch_id c))
       | None, Some ctx => convertIntentResult m = ContextResult ctx
       | None, None => convertIntentResult m = Void
       end).
Proof.
  intros uuid.
  exists {| rp_filter := result_filter messageOut; rp_then := createResultPromise_then |}.
  assert (Hnot : forall l,
            Forall (fun x => ~ is_result_for uuid x) l ->
            Forall (fun x => result_filter messageOut x <> true) l).
  { intros l Hl. apply (Forall_impl _ _ _ Hl). intros x Hx Hf. apply Hx.
    apply result_filter_is_result_for. exact Hf. }
  split; [reflexivity|]. split; [|split; [|split; [|split]]].
  - intros m. apply result_filter_is_result_for.
  - intros earlier m later w1 Hearlier Hm. unfold settle. simpl.
    rewrite waitFor_result_first.
    + reflexivity.
    + apply Hnot. exact Hearlier.
    + apply result_filter_is_result_for. exact Hm.
  - intros inbound w1 Hnone. unfold settle. simpl.
    rewrite waitFor_result_timeout; [reflexivity|]. apply Hnot. exact Hnone.
  - intros inbound w1. unfold settle. simpl.
    destruct (waitFor_result (result_filter messageOut) inbound) as [m|]; simpl.
    + exists (convertIntentResult m). reflexivity.
    + exists Void. reflexivity.
  - apply convertIntentResult_cases.
Qed.

(** Scenario D: only results of other requests arrive. *)
Example no_result_arrives :
  let messageOut := RaiseIntentAgentRequest "ViewChart" instrument app_A (sample_meta 1) in
  let other := {| rr_type := "raiseIntentResultResponse"; rr_requestUuid := "req-";
                  rr_payload := None |} in
  match (createResultPromise messageOut start).1 with
  | Return p => settle p [other; other] start
  | Throw e => (Throw e, start)
  end = (Return Void, start).
Proof. vm_compute. reflexivity. Qed.

Example private_channel_result :
  let reply := {| rr_type := "raiseIntentResultResponse"; rr_requestUuid := "req-i";
                  rr_payload := Some {| intentResult := Some
                    {| irp_channel := Some {| ch_id := "pc-1"; ch_type := "private";
                                              ch_displayMetadata := None |};
                       irp_context := Some instrument |} |} |} in
  settle {| rp_filter := result_filter
              (RaiseIntentAgentRequest "ViewChart" instrument app_A (sample_meta 1));
            rp_then := createResultPromise_then |} [reply] start
  = (Return (DefaultPrivateChannel "pc-1"),
     {| calls := [CallIntentChosen (DefaultPrivateChannel "pc-1")]; minted := 0 |}).
Proof. vm_compute. reflexivity. Qed.

(** *** Further properties of the router *)

(** The resolver's part of a raise: [getSource], [chooseIntent], and the
    raise of what was chosen. *)
Lemma resolver_then_raise (env : Collaborators) (context : Context)
    (candidates : list AppIntent) (w : World) :
  let w' := after_calls w [CallGetSource; CallChooseIntent candidates (own_source env)] in
  (source <- getSource env ;;
   chosentIntent <- chooseIntent env candidates source ;;
   raiseSpecificIntent env (im_name (ic_intent chosentIntent)) context
     (ic_chosenApp chosentIntent))%js w
  = match chooseIntent_result env candidates (own_source env) with
    | Return choice =>
        raiseSpecificIntent env (im_name (ic_intent choice)) context (ic_chosenApp choice) w'
    | Throw e => (Throw e, w')
    end.
Proof.
  unfold getSource, chooseIntent, after_calls.
  unfold bind at 1 2 3 4, record, modify, lift, ret. simpl. rewrite snoc_snoc.
  destruct (chooseIntent_result env candidates (own_source env)); reflexivity.
Qed.

Lemma findIntent_state (env : Collaborators) (intent : string) (context : Context)
    (resultType : option string) (w : World) :
  (findIntent env intent context resultType w).2
  = after_request w
      [CallExchange (FindIntentAgentRequest intent context resultType
                       (minted_meta env (minted w))) "findIntentResponse"].
Proof.
  destruct (exchange_result env
              (FindIntentAgentRequest intent context resultType
                 (minted_meta env (minted w))) "findIntentResponse")
    as [result|e] eqn:Hresult.
  - rewrite (findIntent_run env intent context resultType w result Hresult). reflexivity.
  - rewrite (findIntent_rejected env intent context resultType w e Hresult). reflexivity.
Qed.

Lemma raiseIntent_free_run (env : Collaborators) (intent : string) (context : Context)
    (w w' : World) (matched : AppIntent) :
  findIntent env intent context None w = (Return matched, w') ->
  raiseIntent env intent context None w
  = match apps matched with
    | [] => (Throw (Error NoAppsFound), w')
    | [only] => raiseSpecificIntent env intent context only w'
    | _ =>
        (source <- getSource env ;;
         chosentIntent <- chooseIntent env [matched] source ;;
         raiseSpecificIntent env (im_name (ic_intent chosentIntent)) context
           (ic_chosenApp chosentIntent))%js w'
    end.
Proof.
  intros Hfound. unfold raiseIntent, bind at 1. rewrite Hfound.
  destruct (apps matched) as [|a [|b l]]; reflexivity.
Qed.

Lemma filterApps_record (ai : AppIntent) (app : AppIdentifier) :
  filterApps ai app
  = {| intent := intent ai; apps := filter (matches_target app) (apps ai) |}.
Proof.
  unfold filterApps. f_equal. apply list_filter_iff.
  intros a. apply matchAppId_matches_target.
Qed.

Lemma raiseIntentForContext_run (env : Collaborators) (context : Context)
    (app : option AppIdentifier) (w w' : World) (found : list AppIntent) :
  findIntentsByContext env context w = (Return found, w') ->
  raiseIntentForContext env context app w
  = match context_candidates app found with
    | [] => (Throw (Error NoAppsFound), w')
    | [m] =>
        match apps m with
        | [only] => raiseSpecificIntent env (im_name (intent m)) context only w'
        | _ =>
            (source <- getSource env ;;
             chosentIntent <- chooseIntent env [m] source ;;
             raiseSpecificIntent env (im_name (ic_intent chosentIntent)) context
               (ic_chosenApp chosentIntent))%js w'
        end
    | candidates =>
        (source <- getSource env ;;
         chosentIntent <- chooseIntent env candidates source ;;
         raiseSpecificIntent env (im_name (ic_intent chosentIntent)) context
           (ic_chosenApp chosentIntent))%js w'
    end.
Proof.
  intros Hfound. unfold raiseIntentForContext, bind at 1. rewrite Hfound.
  assert (Hcands :
    match app with
    | Some app =>
        filter (fun m => Is_true (0 <? length (apps m))%nat)
               (map (fun m => filterApps m app) found)
    | None => found
    end = context_candidates app found).
  { destruct app as [app|]; [|reflexivity]. unfold context_candidates.
    rewrite (map_ext _ _ (fun ai => filterApps_record ai app)).
    apply list_filter_iff. intros ai.
    destruct (apps ai); simpl; split; easy. }
  rewrite Hcands.
  destruct (context_candidates app found) as [|m [|m' l]]; try reflexivity.
  destruct (apps m) as [|a [|b l]]; reflexivity.
Qed.

(** X7. [matchAppId] holds exactly when the two identifiers have the same
    [appId] and the same [instanceId] (absent on both sides counts as the
    same), it does not depend on which of the two is the request, and a
    request without [instanceId] is not matched by an identifier that has
    one. *)
Theorem matchAppId_is_field_equality (found req : AppIdentifier) :
  (matchAppId found req = true
   <-> appId found = appId req /\ instanceId found = instanceId req) /\
  matchAppId found req = matchAppId req found /\
  (instanceId req = None -> instanceId found <> None -> matchAppId found req = false).
Proof.
  unfold matchAppId, loose_eq.
  destruct found as [a i], req as [a' i']; simpl.
  split; [|split].
  - rewrite andb_true_iff, orb_true_iff, andb_true_iff, !bool_decide_eq_true.
    destruct i, i'; simpl; intuition congruence.
  - rewrite (bool_decide_ext (a = a') (a' = a)) by (split; congruence).
    rewrite (bool_decide_ext (i = i') (i' = i)) by (split; congruence).
    destruct i, i'; reflexivity.
  - intros -> Hsome. destruct i; [|contradiction].
    apply andb_false_iff. right. reflexivity.
Qed.


(** X9. How [raiseSpecificIntent] ends, by what [exchange] resolves to: a
    rejection is passed on; an error response makes it fail with an [Error]
    carrying the message; an acknowledgement makes it return a resolution with
    the acknowledgement's source, intent and version and the promise
    subscribed for this request. *)
Theorem raiseSpecificIntent_outcomes (env : Collaborators) (intent : string)
    (context : Context) (app : AppIdentifier) (w : World) :
  let meta := minted_meta env (minted w) in
  let messageOut := RaiseIntentAgentRequest intent context app meta in
  let answer := exchange_result env messageOut "raiseIntentResponse" in
  let outcome := (raiseSpecificIntent env intent context app w).1 in
  (forall e, answer = Throw e -> outcome = Throw e) /\
  (forall e, answer = Return (AgentErrorResponse e) ->
     outcome = Throw (Error (em_message e))) /\
  (forall d, answer = Return (RaiseIntentAgentResponse d) ->
     exists resolution,
       outcome = Return resolution /\
       res_source resolution = ird_source d /\
       res_intent resolution = ird_intent d /\
       res_version resolution = ird_version d /\
       forall m, rp_filter (res_resultPromise resolution) m = true
                 <-> is_result_for (requestUuid meta) m).
Proof.
  intros meta messageOut answer outcome. subst answer outcome.
  unfold raiseSpecificIntent, createResultPromise. run_calls. fold meta messageOut.
  split; [|split].
  - intros e ->. reflexivity.
  - intros e ->. simpl. rewrite em_truthy. reflexivity.
  - intros d ->. simpl.
    exists {| res_resultPromise := {| rp_filter := result_filter messageOut;
                                      rp_then := createResultPromise_then |};
              res_source := ird_source d;
              res_intent := ird_intent d;
              res_version := ird_version d |}.
    split; [reflexivity|]. simpl. split; [reflexivity|]. split; [reflexivity|].
    split; [reflexivity|]. intros m. apply (result_filter_is_result_for messageOut).
Qed.

(** X10. Without a target and with exactly one candidate found,
    [raiseIntent] raises against that candidate under the intent name it was
    given, and the resolver is not consulted: after the lookup the only calls
    are those of the raise. *)
Theorem raiseIntent_single_candidate (env : Collaborators) (intent : string)
    (context : Context) (w w' : World) (matched : AppIntent) (only : AppIdentifier) :
  findIntent env intent context None w = (Return matched, w') ->
  apps matched = [only] ->
  let messageOut := RaiseIntentAgentRequest intent context only (minted_meta env (minted w')) in
  raiseIntent env intent context None w = raiseSpecificIntent env intent context only w' /\
  calls (raiseIntent env intent context None w).2
  = calls w' ++ [CallCreateMeta; CallWaitFor (result_filter messageOut);
                 CallExchange messageOut "raiseIntentResponse"].
Proof.
  intros Hfound Hone messageOut.
  rewrite (raiseIntent_free_run env intent context w w' matched Hfound), Hone.
  split; [reflexivity|]. rewrite raiseSpecificIntent_calls. reflexivity.
Qed.

Lemma raiseIntent_single_candidate_witness :
  raiseIntent (sample_env (found_apps [app_B])) "ViewChart" instrument None start
  = raiseSpecificIntent (sample_env (found_apps [app_B])) "ViewChart" instrument app_B
      (findIntent (sample_env (found_apps [app_B])) "ViewChart" instrument None start).2.
Proof.
  exact (proj1 (raiseIntent_single_candidate (sample_env (found_apps [app_B]))
                  "ViewChart" instrument start
                  (findIntent (sample_env (found_apps [app_B]))
                     "ViewChart" instrument None start).2
                  {| intent := viewChart; apps := [app_B] |} app_B eq_refl eq_refl)).
Defined.

(** X11. Without a target and with two or more candidates found,
    [raiseIntent] asks for the own identity and hands the one AppIntent found
    to the resolver. A choice is raised as it is, under the name of the
    intent chosen and against the app chosen; a rejection of the resolver is
    the failure of the call, and then nothing is sent. *)
Theorem raiseIntent_several_candidates (env : Collaborators) (intent : string)
    (context : Context) (w w' : World) (matched : AppIntent)
    (a b : AppIdentifier) (rest : list AppIdentifier) :
  findIntent env intent context None w = (Return matched, w') ->
  apps matched = a :: b :: rest ->
  let w'' := after_calls w' [CallGetSource; CallChooseIntent [matched] (own_source env)] in
  (forall choice,
     chooseIntent_result env [matched] (own_source env) = Return choice ->
     raiseIntent env intent context None w
     = raiseSpecificIntent env (im_name (ic_intent choice)) context (ic_chosenApp choice) w'') /\
  (forall e,
     chooseIntent_result env [matched] (own_source env) = Throw e ->
     raiseIntent env intent context None w = (Throw e, w'')).
Proof.
  intros Hfound Hmany w''.
  rewrite (raiseIntent_free_run env intent context w w' matched Hfound), Hmany.
  rewrite resolver_then_raise. fold w''.
  split; intros x ->; reflexivity.
Qed.

Lemma raiseIntent_several_candidates_witness :
  (raiseIntent (sample_env (found_apps [app_A; app_B])) "ViewChart" instrument None start).1
  = (raiseSpecificIntent (sample_env (found_apps [app_A; app_B])) "ViewChart" instrument app_B
       (after_calls
          (findIntent (sample_env (found_apps [app_A; app_B]))
             "ViewChart" instrument None start).2
          [CallGetSource;
           CallChooseIntent [{| intent := viewChart; apps := [app_A; app_B] |}] own])).1.
Proof.
  rewrite (proj1 (raiseIntent_several_candidates (sample_env (found_apps [app_A; app_B]))
                    "ViewChart" instrument start
                    (findIntent (sample_env (found_apps [app_A; app_B]))
                       "ViewChart" instrument None start).2
                    {| intent := viewChart; apps := [app_A; app_B] |}
                    app_A app_B [] eq_refl eq_refl)
                 {| ic_intent := viewChart; ic_chosenApp := app_B |} eq_refl).
  reflexivity.
Defined.

Lemma subscribed_before_sending_app (previous : option Call) (l1 l2 : list Call) :
  subscribed_before_sending previous l1 ->
  (forall p, subscribed_before_sending p l2) ->
  subscribed_before_sending previous (l1 ++ l2).
Proof.
  intros H1 H2. revert previous H1.
  induction l1 as [|c l1 IH]; intros previous H1; simpl.
  - apply H2.
  - destruct H1 as [Hc Hrest]. split; [exact Hc|]. apply IH. exact Hrest.
Qed.

Lemma raiseSpecificIntent_tail (env : Collaborators) (intent : string)
    (context : Context) (app : AppIdentifier) (w : World) :
  exists tail,
    calls (raiseSpecificIntent env intent context app w).2 = calls w ++ tail /\
    forall p, subscribed_before_sending p tail.
Proof.
  eexists. split.
  - rewrite raiseSpecificIntent_calls. reflexivity.
  - intros p. simpl. split; [exact I|]. split; [exact I|]. split; [|exact I].
    intros m.
    apply (result_filter_is_result_for
             (RaiseIntentAgentRequest intent context app (minted_meta env (minted w)))).
Qed.

Lemma resolver_tail (env : Collaborators) (context : Context)
    (candidates : list AppIntent) (w : World) :
  exists tail,
    calls ((source <- getSource env ;;
            chosentIntent <- chooseIntent env candidates source ;;
            raiseSpecificIntent env (im_name (ic_intent chosentIntent)) context
              (ic_chosenApp chosentIntent))%js w).2
    = calls w ++ tail /\
    forall p, subscribed_before_sending p tail.
Proof.
  rewrite resolver_then_raise.
  destruct (chooseIntent_result env candidates (own_source env)) as [choice|e].
  - destruct (raiseSpecificIntent_tail env (im_name (ic_intent choice)) context
                (ic_chosenApp choice)
                (after_calls w [CallGetSource;
                                CallChooseIntent candidates (own_source env)]))
      as (tail & -> & Htail).
    eexists. split.
    + simpl. rewrite <- app_assoc. reflexivity.
    + intros p. apply subscribed_before_sending_app; [|exact Htail].
      simpl. auto.
  - eexists. split; [reflexivity|]. intros p. simpl. auto.
Qed.

(** After a lookup, a flow whose further calls are in order is in order as
    a whole. *)
Lemma lookup_then_tail (w w1 w2 : World) (req : AgentRequest) (ty : string) :
  w1 = after_request w [CallExchange req ty] ->
  match req with RaiseIntentAgentRequest _ _ _ _ => False | _ => True end ->
  (exists tail, calls w2 = calls w1 ++ tail /\ forall p, subscribed_before_sending p tail) ->
  exists new, calls w2 = calls w ++ new /\ forall p, subscribed_before_sending p new.
Proof.
  intros -> Hreq (tail & Hcalls & Htail).
  exists ([CallCreateMeta; CallExchange req ty] ++ tail). split.
  - rewrite Hcalls. simpl. rewrite <- app_assoc. reflexivity.
  - intros p. apply subscribed_before_sending_app; [|exact Htail].
    destruct req; simpl; try contradiction; auto.
Qed.

Lemma no_further_calls (w : World) :
  exists tail, calls w = calls w ++ tail /\ forall p, subscribed_before_sending p tail.
Proof. exists []. rewrite app_nil_r. split; [reflexivity|]. intros p. exact I. Qed.

(** X12. In every run of [raiseIntent] and of [raiseIntentForContext],
    whatever the target, the answers of the gateway and the choice of the
    resolver, the calls only grow, and every raise request handed to
    [exchange] comes directly after the [waitFor] that subscribes to the
    results carrying its uuid. *)
Theorem raise_flows_subscribe_before_sending (env : Collaborators) (intent : string)
    (context : Context) (app : option AppIdentifier) (w : World) :
  (exists new,
     calls (raiseIntent env intent context app w).2 = calls w ++ new /\
     forall p, subscribed_before_sending p new) /\
  (exists new,
     calls (raiseIntentForContext env context app w).2 = calls w ++ new /\
     forall p, subscribed_before_sending p new).
Proof.
  split.
  - pose proof (findIntent_state env intent context None w) as Hstate.
    destruct (findIntent env intent context None w) as [[matched|e] w1] eqn:Hfound;
      simpl in Hstate.
    + apply (lookup_then_tail w w1 _ _ _ Hstate I).
      destruct app as [app|].
      * rewrite (raiseIntent_target_run env intent context app w w1 matched Hfound).
        destruct (_ && truthy_opt _); [apply no_further_calls|].
        destruct (_ && truthy _); [apply no_further_calls|].
        apply raiseSpecificIntent_tail.
      * rewrite (raiseIntent_free_run env intent context w w1 matched Hfound).
        destruct (apps matched) as [|a [|b l]].
        -- apply no_further_calls.
        -- apply raiseSpecificIntent_tail.
        -- apply resolver_tail.
    + apply (lookup_then_tail w w1 _ _ _ Hstate I).
      rewrite (raiseIntent_lookup_failed env intent context app w w1 e Hfound).
      apply no_further_calls.
  - pose proof (findIntentsByContext_run env context w) as Hrun. simpl in Hrun.
    destruct (findIntentsByContext env context w) as [[found|e] w1] eqn:Hfound.
    + injection Hrun as _ Hstate.
      apply (lookup_then_tail w w1 _ _ _ Hstate I).
      rewrite (raiseIntentForContext_run env context app w w1 found Hfound).
      destruct (context_candidates app found) as [|m [|m' l]].
      * apply no_further_calls.
      * destruct (apps m) as [|a [|b l]];
          [apply resolver_tail|apply raiseSpecificIntent_tail|apply resolver_tail].
      * apply resolver_tail.
    + injection Hrun as _ Hstate.
      apply (lookup_then_tail w w1 _ _ _ Hstate I).
      unfold raiseIntentForContext, bind at 1. rewrite Hfound.
      apply no_further_calls.
Qed.

Lemma context_candidates_target (app : AppIdentifier) (found : list AppIntent) :
  Forall (fun ai => apps ai <> [] /\ Forall (matches_target app) (apps ai))
         (context_candidates (Some app) found).
Proof.
  unfold context_candidates. apply Forall_forall. intros ai Hai.
  apply list_elem_of_filter in Hai as [Hne Hai]. split; [exact Hne|].
  apply list_elem_of_fmap in Hai as (ai0 & -> & _). simpl.
  apply Forall_forall. intros a Ha. apply list_elem_of_filter in Ha as [Ha _]. exact Ha.
Qed.

Lemma context_candidates_without_match (app : AppIdentifier) (found : list AppIntent) :
  (forall ai a, ai ∈ found -> a ∈ apps ai -> ~ matches_target app a) ->
  context_candidates (Some app) found = [].
Proof.
  unfold context_candidates. intros Hnone.
  induction found as [|ai found IH]; [reflexivity|].
  rewrite fmap_cons, filter_cons_False.
  - apply IH. intros ai' a Hai'. apply Hnone. apply list_elem_of_further. exact Hai'.
  - simpl. intros Hne. apply Hne.
    destruct (filter (matches_target app) (apps ai)) as [|a l] eqn:Hfilter; [reflexivity|].
    assert (Ha : a ∈ filter (matches_target app) (apps ai))
      by (rewrite Hfilter; apply list_elem_of_here).
    apply list_elem_of_filter in Ha as [Hmatch Ha].
    exfalso. exact (Hnone ai a (list_elem_of_here _ _) Ha Hmatch).
Qed.

(** X13. With a target that no candidate of any AppIntent found matches,
    [raiseIntentForContext] fails with [NoAppsFound] (not with
    [TargetAppUnavailable] or [TargetInstanceUnavailable], whatever the target
    has set) and makes no call after the lookup. *)
Theorem raiseIntentForContext_target_without_match (env : Collaborators)
    (context : Context) (app : AppIdentifier) (w w' : World) (found : list AppIntent) :
  findIntentsByContext env context w = (Return found, w') ->
  (forall ai a, ai ∈ found -> a ∈ apps ai -> ~ matches_target app a) ->
  raiseIntentForContext env context (Some app) w = (Throw (Error NoAppsFound), w').
Proof.
  intros Hfound Hnone.
  rewrite (raiseIntentForContext_run env context (Some app) w w' found Hfound).
  rewrite (context_candidates_without_match app found Hnone). reflexivity.
Qed.

Lemma raiseIntentForContext_target_without_match_witness :
  (raiseIntentForContext (sample_env found_by_context) instrument (Some app_C) start).1
  = Throw (Error "NoAppsFound").
Proof.
  rewrite (raiseIntentForContext_target_without_match (sample_env found_by_context)
             instrument app_C start
             (findIntentsByContext (sample_env found_by_context) instrument start).2
             [{| intent := viewChart; apps := [app_A; app_B] |};
              {| intent := viewNews; apps := [app_B] |}] eq_refl).
  - reflexivity.
  - intros ai a Hai Ha [Happ _].
    rewrite !elem_of_cons, elem_of_nil in Hai.
    destruct Hai as [->|[->|[]]]; simpl in Ha;
      rewrite !elem_of_cons, elem_of_nil in Ha;
      destruct Ha as [->|Ha]; try destruct Ha as [->|[]]; try discriminate Happ;
      try contradiction.
Defined.

(** X14. Once the lookup by context has returned, what counts are the
    candidates left: with a target, in each AppIntent the candidates matching
    it, and only the AppIntents that keep one. When one AppIntent with one
    candidate is left, [raiseIntentForContext] raises that intent against
    that candidate and the resolver is not consulted. When more is left, the
    resolver gets all of it, its choice is raised, and its rejection is the
    failure of the call. *)
Theorem raiseIntentForContext_with_candidates (env : Collaborators)
    (context : Context) (app : option AppIdentifier) (w w' : World)
    (found : list AppIntent) :
  findIntentsByContext env context w = (Return found, w') ->
  let candidates := context_candidates app found in
  let w'' := after_calls w' [CallGetSource; CallChooseIntent candidates (own_source env)] in
  (forall target, app = Some target ->
     Forall (fun ai => apps ai <> [] /\ Forall (matches_target target) (apps ai))
            candidates) /\
  (forall m only, candidates = [m] -> apps m = [only] ->
     raiseIntentForContext env context app w
     = raiseSpecificIntent env (im_name (intent m)) context only w') /\
  (candidates <> [] ->
   (forall m only, candidates = [m] -> apps m <> [only]) ->
   raiseIntentForContext env context app w
   = match chooseIntent_result env candidates (own_source env) with
     | Return choice =>
         raiseSpecificIntent env (im_name (ic_intent choice)) context
           (ic_chosenApp choice) w''
     | Throw e => (Throw e, w'')
     end).
Proof.
  intros Hfound candidates w''.
  rewrite (raiseIntentForContext_run env context app w w' found Hfound).
  fold candidates. split; [|split].
  - intros target ->. apply context_candidates_target.
  - intros m only -> ->. reflexivity.
  - intros Hne Hnot. subst w''.
    destruct candidates as [|m [|m' l]]; [contradiction| |].
    + destruct (apps m) as [|a [|b l]] eqn:Happs.
      * apply resolver_then_raise.
      * exfalso. exact (Hnot m a eq_refl Happs).
      * apply resolver_then_raise.
    + apply resolver_then_raise.
Qed.

Lemma raiseIntentForContext_with_candidates_witness :
  raiseIntentForContext (sample_env found_by_context) instrument (Some app_A) start
  = raiseSpecificIntent (sample_env found_by_context) "ViewChart" instrument app_A
      (findIntentsByContext (sample_env found_by_context) instrument start).2.
Proof.
  exact (proj1 (proj2 (raiseIntentForContext_with_candidates
                         (sample_env found_by_context) instrument (Some app_A) start
                         (findIntentsByContext (sample_env found_by_context)
                            instrument start).2
                         [{| intent := viewChart; apps := [app_A; app_B] |};
                          {| intent := viewNews; apps := [app_B] |}] eq_refl))
               {| intent := viewChart; apps := [app_A] |} app_A eq_refl eq_refl).
Defined.

(** X15. [findIntentsByContext] does not look for an [error] field: when
    the gateway resolves the lookup to an error response, the call fails with
    the [TypeError] of reading the length of a list that is not there, not
    with an [Error] carrying the response's message, and so does
    [raiseIntentForContext]. *)
Theorem findIntentsByContext_error_response (env : Collaborators) (context : Context)
    (w : World) (e : ErrorMessages) :
  exchange_result env
    (FindIntentsByContextAgentRequest context (minted_meta env (minted w)))
    "findIntentsByContextResponse" = Return (AgentErrorResponse e) ->
  (exists what, (findIntentsByContext env context w).1 = Throw (TypeError what)) /\
  (findIntentsByContext env context w).1 <> Throw (Error (em_message e)) /\
  (forall app, exists what,
     (raiseIntentForContext env context app w).1 = Throw (TypeError what)).
Proof.
  intros Hanswer.
  pose proof (findIntentsByContext_run env context w) as Hrun. simpl in Hrun.
  rewrite Hanswer in Hrun. split; [|split].
  - rewrite Hrun. eexists. reflexivity.
  - rewrite Hrun. discriminate.
  - intros app. unfold raiseIntentForContext, bind at 1. rewrite Hrun.
    eexists. reflexivity.
Qed.

Lemma findIntentsByContext_error_response_witness :
  (findIntentsByContext (sample_env (AgentErrorResponse agent_disconnected))
     instrument start).1
  <> Throw (Error "AgentDisconnected").
Proof.
  exact (proj1 (proj2 (findIntentsByContext_error_response
                         (sample_env (AgentErrorResponse agent_disconnected))
                         instrument start agent_disconnected eq_refl))).
Defined.

(** X16. When the result payload has a channel, the conversion looks at
    nothing else: a context beside it is never the result, two messages with
    the same channel convert alike, and a channel whose type is none of
    [app], [user] and [private] converts to the absent result. *)
Theorem convertIntentResult_channel_first (m : RaiseIntentResultAgentResponse)
    (c : Channel) :
  result_channel m = Some c ->
  (forall ctx, convertIntentResult m <> ContextResult ctx) /\
  (forall m', result_channel m' = Some c ->
     convertIntentResult m' = convertIntentResult m) /\
  (ch_type c ∉ ["app"; "user"; "private"] -> convertIntentResult m = Void).
Proof.
  assert (Hconv : forall x, result_channel x = Some c ->
            convertIntentResult x
            = if String.eqb (ch_type c) "app" || String.eqb (ch_type c) "user"
              then DefaultChannel (ch_id c) (ch_type c) (ch_displayMetadata c)
              else if String.eqb (ch_type c) "private"
              then DefaultPrivateChannel (ch_id c)
              else Void).
  { intros x. unfold result_channel, convertIntentResult.
    destruct (rr_payload x) as [p|]; [|discriminate].
    destruct (intentResult p) as [r|]; [|discriminate].
    intros ->. reflexivity. }
  intros Hm. split; [|split].
  - intros ctx. rewrite (Hconv m Hm).
    destruct (_ || _); [discriminate|]. destruct (String.eqb _ _); discriminate.
  - intros m' Hm'. rewrite (Hconv m Hm), (Hconv m' Hm'). reflexivity.
  - rewrite !not_elem_of_cons. intros (Happ & Huser & Hprivate & _).
    apply String.eqb_neq in Happ, Huser, Hprivate.
    rewrite (Hconv m Hm), Happ, Huser, Hprivate. reflexivity.
Qed.

Lemma convertIntentResult_channel_first_witness :
  convertIntentResult odd_channel_result = Void.
Proof.
  refine (proj2 (proj2 (convertIntentResult_channel_first odd_channel_result
                          {| ch_id := "ch-1"; ch_type := "system";
                             ch_displayMetadata := None |} eq_refl)) _).
  rewrite !not_elem_of_cons. repeat split; try discriminate. apply not_elem_of_nil.
Defined.

Lemma findIntent_returns_candidates (env : Collaborators) (intent : string)
    (context : Context) (resultType : option string) (w w' : World) (matched : AppIntent) :
  findIntent env intent context resultType w = (Return matched, w') ->
  apps matched <> [].
Proof.
  intros Hrun.
  destruct (exchange_result env
              (FindIntentAgentRequest intent context resultType
                 (minted_meta env (minted w))) "findIntentResponse")
    as [result|e] eqn:Hresult.
  - rewrite (findIntent_run env intent context resultType w result Hresult) in Hrun.
    destruct result as [ai|ais|d|e]; try discriminate.
    destruct (apps ai) as [|a l] eqn:Happs; simpl in Hrun; [discriminate|].
    injection Hrun as <- _. simpl. discriminate.
  - rewrite (findIntent_rejected env intent context resultType w e Hresult) in Hrun.
    discriminate.
Qed.

(** X17. Without a target, a lookup that returns is always followed by a
    further call, the [createMeta] of a raise or the [getSource] before the
    resolver: the [NoAppsFound] branch of [raiseIntent] for an empty candidate
    list is never taken, since [findIntent] has failed before on such a
    list. *)
Theorem raiseIntent_goes_on_after_lookup (env : Collaborators) (intent : string)
    (context : Context) (w w' : World) (matched : AppIntent) :
  findIntent env intent context None w = (Return matched, w') ->
  exists next rest,
    calls (raiseIntent env intent context None w).2 = calls w' ++ next :: rest /\
    (next = CallCreateMeta \/ next = CallGetSource).
Proof.
  intros Hfound.
  pose proof (findIntent_returns_candidates env intent context None w w' matched Hfound)
    as Hne.
  rewrite (raiseIntent_free_run env intent context w w' matched Hfound).
  destruct (apps matched) as [|a [|b l]]; [contradiction| |].
  - rewrite raiseSpecificIntent_calls. simpl. eexists _, _. split; [reflexivity|].
    left. reflexivity.
  - rewrite resolver_then_raise.
    destruct (chooseIntent_result env [matched] (own_source env)) as [choice|e].
    + rewrite raiseSpecificIntent_calls. simpl. rewrite <- app_assoc. simpl.
      eexists _, _. split; [reflexivity|]. right. reflexivity.
    + simpl. eexists _, _. split; [reflexivity|]. right. reflexivity.
Qed.

Lemma raiseIntent_goes_on_after_lookup_witness :
  exists next rest,
    calls (raiseIntent (sample_env (found_apps [app_A; app_B])) "ViewChart"
             instrument None start).2
    = calls (findIntent (sample_env (found_apps [app_A; app_B])) "ViewChart"
               instrument None start).2 ++ next :: rest /\
    (next = CallCreateMeta \/ next = CallGetSource).
Proof.
  exact (raiseIntent_goes_on_after_lookup (sample_env (found_apps [app_A; app_B]))
           "ViewChart" instrument start
           (findIntent (sample_env (found_apps [app_A; app_B])) "ViewChart"
              instrument None start).2
           {| intent := viewChart; apps := [app_A; app_B] |} eq_refl).
Defined.

End IntentRouterFacts.
